(** * pay-frontend: the outbound request client and the service cache middleware

    A shallow embedding of
      - [app/utils/base_client2.js] (header computation, forward proxy routing,
        retry defaults), and
      - the service-resolving middleware (the cache in front of the admin
        users client),
    followed by the properties the specification states about them.

    JavaScript values are embedded as the inductive [Js.JsVal]; objects used as
    string-keyed dictionaries (HTTP headers, the cache store) are finite maps. *)

From Stdlib Require Import ZArith Lia Bool Ascii String List.
From stdpp Require Import gmap strings list pretty countable.

Local Open Scope string_scope.
Local Open Scope Z_scope.

(* ===================================================================== *)
(** ** JavaScript values *)
(* ===================================================================== *)

Module Js.

(** The values the modelled code inspects.  Numbers are restricted to the
    integers (identifiers, ports); an object is its list of own properties. *)
Unset Elimination Schemes.
Inductive JsVal : Type :=
| JUndefined
| JNull
| JBool (b : bool)
| JNum (n : Z)
| JStr (s : string)
| JObj (props : list (string * JsVal)).
Set Elimination Schemes.

(** Induction principle that reaches the property values of an object. *)
Fixpoint JsVal_nested_ind (P : JsVal -> Prop)
    (Hundef : P JUndefined) (Hnull : P JNull)
    (Hbool : forall b, P (JBool b)) (Hnum : forall n, P (JNum n))
    (Hstr : forall s, P (JStr s))
    (Hobj : forall props, Forall (fun kv => P (snd kv)) props -> P (JObj props))
    (v : JsVal) {struct v} : P v :=
  match v with
  | JUndefined => Hundef
  | JNull => Hnull
  | JBool b => Hbool b
  | JNum n => Hnum n
  | JStr s => Hstr s
  | JObj props =>
      Hobj props
        ((fix go (l : list (string * JsVal)) : Forall (fun kv => P (snd kv)) l :=
            match l with
            | [] => Forall_nil _
            | kv :: l' =>
                Forall_cons _ kv l'
                  (JsVal_nested_ind P Hundef Hnull Hbool Hnum Hstr Hobj (snd kv)) (go l')
            end) props)
  end.

(** ToBoolean: the test performed by [if (v)], [!v], [a || b] and [a && b]. *)
Definition truthy (v : JsVal) : bool :=
  match v with
  | JUndefined | JNull => false
  | JBool b => b
  | JNum n => negb (n =? 0)
  | JStr s => negb (String.eqb s "")
  | JObj _ => true
  end.

(** ToString, as applied by template literals and by [+] on a string. *)
Definition to_string (v : JsVal) : string :=
  match v with
  | JUndefined => "undefined"
  | JNull => "null"
  | JBool true => "true"
  | JBool false => "false"
  | JNum n => pretty n
  | JStr s => s
  | JObj _ => "[object Object]"
  end.

(** Own property of an object literal; the first binding of a name counts. *)
Fixpoint own_property (props : list (string * JsVal)) (k : string) : option JsVal :=
  match props with
  | [] => None
  | (k', v) :: rest => if String.eqb k' k then Some v else own_property rest k
  end.

(** Property read [v.k] / [v[k]].  [None] is the TypeError raised when [v] is
    [undefined] or [null].  A missing property reads as [undefined]; so does
    any of the property names used by this program on a primitive. *)
Definition get_prop (v : JsVal) (k : string) : option JsVal :=
  match v with
  | JUndefined | JNull => None
  | JObj props => Some (default JUndefined (own_property props k))
  | JBool _ | JNum _ | JStr _ => Some JUndefined
  end.

(** lodash's [baseGet]: walk [path] while the current object is not nullish;
    the walk yields the value reached when the whole path was consumed and
    [undefined] when it stopped early. *)
Fixpoint baseGet (object : JsVal) (path : list string) : JsVal :=
  match path with
  | [] => object
  | k :: rest =>
      match get_prop object k with
      | Some v => baseGet v rest
      | None => JUndefined
      end
  end.

(** Equality of values is decidable and values can be enumerated, so that a
    value can key a finite map. *)
Definition leaf : Type := (bool + Z) + string.

Fixpoint encode_val (v : JsVal) : gen_tree leaf :=
  match v with
  | JUndefined => GenNode 0 []
  | JNull => GenNode 1 []
  | JBool b => GenLeaf (inl (inl b))
  | JNum n => GenLeaf (inl (inr n))
  | JStr s => GenLeaf (inr s)
  | JObj props =>
      GenNode 2
        ((fix go (l : list (string * JsVal)) : list (gen_tree leaf) :=
            match l with
            | [] => []
            | kv :: l' => GenLeaf (inr (fst kv)) :: encode_val (snd kv) :: go l'
            end) props)
  end.

Fixpoint decode_val (t : gen_tree leaf) : JsVal :=
  match t with
  | GenNode 0 [] => JUndefined
  | GenNode 1 [] => JNull
  | GenLeaf (inl (inl b)) => JBool b
  | GenLeaf (inl (inr n)) => JNum n
  | GenLeaf (inr s) => JStr s
  | GenNode _ ts =>
      JObj
        ((fix go (l : list (gen_tree leaf)) : list (string * JsVal) :=
            match l with
            | GenLeaf (inr k) :: t' :: l' => (k, decode_val t') :: go l'
            | _ => []
            end) ts)
  end.

Lemma decode_encode_val (v : JsVal) : decode_val (encode_val v) = v.
Proof.
  induction v as [| | b | n | s | props IH] using JsVal_nested_ind; try reflexivity.
  simpl. f_equal.
  induction IH as [| [k w] l Hw _ IHl]; [reflexivity |].
  simpl in *. now rewrite Hw, IHl.
Qed.

#[global] Instance JsVal_eq_dec : EqDecision JsVal.
Proof.
  intros x y.
  destruct (decide (encode_val x = encode_val y)) as [E | N].
  - left. rewrite <- (decode_encode_val x), <- (decode_encode_val y). now rewrite E.
  - right. intros ->. now apply N.
Defined.

#[global] Instance JsVal_countable : Countable JsVal :=
  inj_countable' encode_val decode_val decode_encode_val.

End Js.

(* ===================================================================== *)
(** ** URLs *)
(* ===================================================================== *)

Module Url.

(** The object returned by Node's [url.parse]; [None] stands for [null].
    [rest] holds what follows the authority (path, query and fragment). *)
Record Url : Type := mkUrl {
  protocol : option string;
  slashes : bool;
  auth : option string;
  host : option string;
  port : option string;
  hostname : option string;
  rest : string
}.

Definition in_range (lo hi : nat) (c : ascii) : bool :=
  (lo <=? nat_of_ascii c)%nat && (nat_of_ascii c <=? hi)%nat.

Definition is_digit (c : ascii) : bool := in_range 48 57 c.
Definition is_upper (c : ascii) : bool := in_range 65 90 c.
Definition is_lower (c : ascii) : bool := in_range 97 122 c.

Definition one_of (cs : list nat) (c : ascii) : bool :=
  existsb (Nat.eqb (nat_of_ascii c)) cs.

(** [a-z0-9.+-], case-insensitively: the characters of a scheme. *)
Definition is_protocol_char (c : ascii) : bool :=
  is_lower c || is_upper c || is_digit c || one_of [46; 43; 45]%nat c.

(** '/', '?' and '#' end the authority. *)
Definition is_host_ending (c : ascii) : bool := one_of [47; 63; 35]%nat c.

(** Characters that cannot occur in a host name: the host-ending ones, '%',
    ';', the quote characters, the delimiters and the blanks. *)
Definition is_non_host (c : ascii) : bool :=
  one_of [37; 47; 63; 59; 35; 39; 123; 125; 124; 92; 94; 96; 60; 62; 34; 32; 13; 10; 9]%nat c.

Definition to_lower_char (c : ascii) : ascii :=
  if is_upper c then ascii_of_nat (nat_of_ascii c + 32) else c.

Fixpoint to_lower (s : string) : string :=
  match s with
  | EmptyString => EmptyString
  | String c r => String (to_lower_char c) (to_lower r)
  end.

(** The longest prefix whose characters all fail [stop], and what follows. *)
Fixpoint break (stop : ascii -> bool) (s : string) : string * string :=
  match s with
  | EmptyString => (EmptyString, EmptyString)
  | String c r =>
      if stop c then (EmptyString, s)
      else let '(a, b) := break stop r in (String c a, b)
  end.

(** Split at the last occurrence of the character with code [n]. *)
Fixpoint split_last (n : nat) (s : string) : option (string * string) :=
  match s with
  | EmptyString => None
  | String c r =>
      match split_last n r with
      | Some (a, b) => Some (String c a, b)
      | None => if Nat.eqb (nat_of_ascii c) n then Some (EmptyString, r) else None
      end
  end.

Fixpoint all_chars (p : ascii -> bool) (s : string) : bool :=
  match s with
  | EmptyString => true
  | String c r => p c && all_chars p r
  end.

Definition drop_prefix (p s : string) : option string :=
  if String.prefix p s then Some (String.substring (String.length p) (String.length s - String.length p) s)
  else None.

(** A leading scheme, lower-cased and with its colon, and the remainder. *)
Definition split_protocol (s : string) : option string * string :=
  let '(run, after) := break (fun c => negb (is_protocol_char c)) s in
  match run, after with
  | String _ _, String c after' =>
      if Nat.eqb (nat_of_ascii c) 58 then (Some (to_lower run ++ ":"), after') else (None, s)
  | _, _ => (None, s)
  end.

Definition slashedProtocol : list string :=
  ["http:"; "https:"; "ftp:"; "gopher:"; "file:"; "ws:"; "wss:"].
Definition hostlessProtocol : list string := ["javascript:"].

Definition mem (x : string) (l : list string) : bool := existsb (String.eqb x) l.

(** [host:port] into host name and port: a trailing ':' followed by digits
    only is cut off, and is the port unless no digit follows the colon. *)
Definition split_port (h : string) : string * option string :=
  match split_last 58 h with
  | Some (name, digits) =>
      if all_chars is_digit digits
      then (name, if String.eqb digits "" then None else Some digits)
      else (h, None)
  | None => (h, None)
  end.

(** Node's [url.parse(s)] on the generic shape
    [scheme://user@host:port/path?query#fragment]. *)
Definition urlParse (s : string) : Url :=
  let '(proto, after) := split_protocol s in
  let '(slashes, after) :=
    match drop_prefix "//" after with
    | Some r => match proto with Some _ => (true, r) | None => (false, after) end
    | None => (false, after)
    end in
  let parses_host :=
    match proto with
    | Some p => negb (mem p hostlessProtocol) && (slashes || negb (mem p slashedProtocol))
    | None => false
    end in
  if parses_host then
    let '(authority, _) := break is_host_ending after in
    let '(auth, after) :=
      match split_last 64 authority with
      | Some (a, _) =>
          (Some a, String.substring (S (String.length a))
                     (String.length after - S (String.length a)) after)
      | None => (None, after)
      end in
    let '(hostport, rest) := break is_non_host after in
    let '(name, port) := split_port hostport in
    let name := to_lower name in
    {| protocol := proto; slashes := slashes; auth := auth;
       host := Some (name ++ match port with Some p => ":" ++ p | None => "" end);
       port := port; hostname := Some name; rest := rest |}
  else
    {| protocol := proto; slashes := slashes; auth := None; host := None;
       port := None; hostname := None; rest := after |}.

End Url.

(* ===================================================================== *)
(** ** The outbound request client: [app/utils/base_client2.js] *)
(* ===================================================================== *)

Module BaseClient.
Import Js Url.

(** HTTP header sets: JavaScript objects used as dictionaries from header
    names to string values. *)
Abbreviation Headers := (gmap string string).

(** A trace segment of the X-Ray SDK; the client reads its two identifiers. *)
Record Segment : Type := mkSegment { trace_id : string; id : string }.

(** [segmentData]: the ambient segment of the continuation-local namespace
    and the sub-segment handed in by the caller. *)
Record SegmentData : Type := mkSegmentData {
  clsSegment : option Segment;
  subSegment : option Segment
}.

(** The [args] object of a call. *)
Record Args : Type := mkArgs {
  correlationId : option string;
  payload : JsVal;
  qs : JsVal;
  headers : option Headers
}.

(** [process.env], as far as routing reads it. *)
Record Env : Type := mkEnv { FORWARD_PROXY_URL : option string }.

(** *** Retry defaults *)

(** An error delivered to the completion callback; [code] is [err.code]. *)
Record Err : Type := mkErr { code : option string }.

Definition RETRIABLE_ERRORS : list string := ["ECONNRESET"].

(** [_.includes(array, value)] on an array of strings. *)
Definition includes (array : list string) (value : option string) : bool :=
  match value with
  | Some v => existsb (String.eqb v) array
  | None => false
  end.

(** [retryOnEconnreset (err)]: [err && _.includes(RETRIABLE_ERRORS, err.code)],
    read as a condition.  [None] is the [null] error of a completed exchange. *)
Definition retryOnEconnreset (err : option Err) : bool :=
  match err with
  | Some e => includes RETRIABLE_ERRORS (code e)
  | None => false
  end.

(** The outcome of one attempt as the retrying layer sees it: a network error,
    or an HTTP response with its status code. *)
Inductive Attempt : Type :=
| Errored (err : Err)
| Responded (statusCode : Z).

Definition attempt_err (a : Attempt) : option Err :=
  match a with
  | Errored e => Some e
  | Responded _ => None
  end.

(** The options [request.defaults] fixes for every call of [client]. *)
Record Defaults : Type := mkDefaults {
  json : bool;
  maxAttempts : nat;
  retryDelay : Z;
  retryStrategy : option Err -> bool
}.

Definition client_defaults : Defaults :=
  {| json := true;
     maxAttempts := 3;
     retryDelay := 5000;
     retryStrategy := retryOnEconnreset |}.

(** What the retrying layer does, in order. *)
Inductive RetryEvent : Type :=
| Try (n : nat) (outcome : Attempt)
| Wait (ms : Z)
| Reply (outcome : Attempt).

(** Modelled from the spec: the attempt loop of the retrying HTTP library
    (requestretry, not part of the sources).  It makes up to [maxAttempts]
    attempts; after an attempt for which [retryStrategy] holds, and while
    attempts remain, it waits [retryDelay] and tries again; otherwise it
    hands the attempt's outcome to the caller.  [world n] is the outcome of
    attempt number [n]. *)
Fixpoint tryUntilFail (d : Defaults) (remaining : nat) (n : nat)
    (world : nat -> Attempt) : list RetryEvent :=
  match remaining with
  | O => []
  | S remaining' =>
      let outcome := world n in
      Try n outcome ::
        (if retryStrategy d (attempt_err outcome) && (0 <? remaining')%nat
         then Wait (retryDelay d) :: tryUntilFail d remaining' (S n) world
         else [Reply outcome])
  end.

Definition client (world : nat -> Attempt) : list RetryEvent :=
  tryUntilFail client_defaults (maxAttempts client_defaults) 1 world.

Definition is_try (e : RetryEvent) : bool :=
  match e with Try _ _ => true | _ => false end.

Definition attempts (evs : list RetryEvent) : nat := length (List.filter is_try evs).

Definition waits (evs : list RetryEvent) : list Z :=
  omap (fun e => match e with Wait ms => Some ms | _ => None end) evs.

Definition replies (evs : list RetryEvent) : list Attempt :=
  omap (fun e => match e with Reply a => Some a | _ => None end) evs.

(** *** Header computation *)

(** [a || b] on an optional string: [undefined] and the empty string are falsy. *)
Definition or_else (a : option string) (b : string) : string :=
  match a with
  | Some s => if String.eqb s "" then b else s
  | None => b
  end.

(** [x ? ':' + x : ''] for the port of a parsed URL. *)
Definition port_suffix (p : option string) : string :=
  match p with
  | Some p => if String.eqb p "" then "" else ":" ++ p
  | None => ""
  end.

(** [hostname + port]: a [null] host name concatenates as the text null. *)
Definition host_of (url : string) : string :=
  match hostname (urlParse url) with
  | Some h => h
  | None => "null"
  end ++ port_suffix (port (urlParse url)).

(** [_.merge(object, source)] on two flat header objects: every property of
    [source] is assigned onto [object]. *)
Definition merge (object source : Headers) : Headers := source ∪ object.

Section Client.

(** The name of the correlation header, a constant of
    [./correlation_header] (not part of the sources). *)
Variable CORRELATION_HEADER_NAME : string.

(** [getHeaders], lines 48-54: the headers as they are logged. *)
Definition basicHeaders (args : Args) (url : string) : Headers :=
  let headers : Headers := ∅ in
  let headers := <["Content-Type" := "application/json"]> headers in
  let headers := <[CORRELATION_HEADER_NAME := or_else (correlationId args) ""]> headers in
  if String.eqb url "" then headers
  else <["host" := host_of url]> headers.

(** [getHeaders], lines 48-66: the headers before the caller's are merged in.
    [fresh] is the segment [new AWSXRay.Segment('_request', null, trace_id)]
    constructs; its identifier is drawn at random by the SDK. *)
Definition computedHeaders (fresh : Segment) (args : Args)
    (segmentData : SegmentData) (url : string) : Headers :=
  let headers := basicHeaders args url in
  match clsSegment segmentData with
  | Some cls =>
      let subSegment := default fresh (subSegment segmentData) in
      <["X-Amzn-Trace-Id" :=
          String.concat "" ["Root="; trace_id cls; ";Parent="; id subSegment; ";Sampled=1"]]>
        headers
  | None => headers
  end.

(** [getHeaders (args, segmentData, url)]. *)
Definition getHeaders (fresh : Segment) (args : Args)
    (segmentData : SegmentData) (url : string) : Headers :=
  let computed := computedHeaders fresh args segmentData url in
  match headers args with
  | Some extra => merge computed extra
  | None => computed
  end.

(** *** Issuing a request *)

Inductive Agent : Type := httpAgent | httpsAgent.

(** The [uri] option: the URL string, or a parsed URL object. *)
Inductive Uri : Type :=
| UriString (s : string)
| UriObject (u : Url).

Record RequestOptions : Type := mkRequestOptions {
  uri : Uri;
  method : string;
  agent : Agent;
  req_headers : Headers;
  body : option JsVal;
  req_qs : option JsVal
}.

(** A [uri] option concatenated onto a string: the string itself, and for a
    URL object, which has no [toString] of its own, the text every plain
    object gives. *)
Definition uri_text (u : Uri) : string :=
  match u with
  | UriString s => s
  | UriObject _ => "[object Object]"
  end.

(** The two [logger.debug] lines of a call: the target line by its text,
    the headers line by the headers it serializes. *)
Inductive LogLine : Type :=
| DebugTargetUri (message : string)
| DebugHeaders (logged : Headers).

Definition truthy_env (v : option string) : bool :=
  match v with
  | Some s => negb (String.eqb s "")
  | None => false
  end.

(** [_request (methodName, url, args, callback, subSegment)].  [ambient] is
    the segment found in the continuation-local namespace, if any.  The
    result is the log lines written and the options handed to [client]: the
    first line is written on line 96, the second by [getHeaders] (line 55),
    before the trace header and the caller's headers are added. *)
Definition _request (env : Env) (ambient : option Segment) (fresh : Segment)
    (methodName url : string) (args : Args) (subSegment : option Segment)
    : list LogLine * RequestOptions :=
  let agent :=
    match protocol (urlParse url) with
    | Some p => if String.eqb p "http:" then httpAgent else httpsAgent
    | None => httpsAgent
    end in
  let clsSegment := ambient in
  let urlOrForwardProxy :=
    if truthy_env (FORWARD_PROXY_URL env) then
      let proxy := default "" (FORWARD_PROXY_URL env) in
      let parsed := urlParse url in
      UriObject
        {| protocol := protocol parsed; slashes := slashes parsed;
           auth := auth parsed; host := host parsed;
           port := port (urlParse proxy);
           hostname := hostname (urlParse proxy);
           rest := rest parsed |}
    else UriString url in
  let segmentData := {| clsSegment := clsSegment; subSegment := subSegment |} in
  let requestOptions :=
    {| uri := urlOrForwardProxy;
       method := methodName;
       agent := agent;
       req_headers := getHeaders fresh args segmentData url;
       body := if truthy (payload args) then Some (payload args) else None;
       req_qs := if truthy (qs args) then Some (qs args) else None |} in
  ([DebugTargetUri ("base_client2 target uri: " ++ uri_text urlOrForwardProxy);
    DebugHeaders (basicHeaders args url)],
   requestOptions).

(** The exported verbs.  Only [get] passes a sub-segment on. *)
Definition get env ambient fresh url args subSegment :=
  _request env ambient fresh "GET" url args subSegment.
Definition post env ambient fresh url args :=
  _request env ambient fresh "POST" url args None.
Definition put env ambient fresh url args :=
  _request env ambient fresh "PUT" url args None.
Definition patch env ambient fresh url args :=
  _request env ambient fresh "PATCH" url args None.
Definition delete_ env ambient fresh url args :=
  _request env ambient fresh "DELETE" url args None.

End Client.

(** Where the HTTP library connects for a given [uri] option: the host name
    and port of the URL object, parsing it first when it is a string. *)
Definition transport_target (u : Uri) : option string * option string :=
  match u with
  | UriString s => (hostname (urlParse s), port (urlParse s))
  | UriObject o => (hostname o, port o)
  end.

End BaseClient.

(* ===================================================================== *)
(** ** The in-memory cache *)
(* ===================================================================== *)

Module Cache.
Import Js.

(** Modelled from the spec: the cache store ([Cache] of the memory-cache
    package, not part of the sources).  An entry is keyed by the value given
    to [put], holds the value stored and the instant it expires; an entry
    inserted with time-to-live [time] is present when queried before that
    much time has passed and absent afterwards.  Instants and durations are
    in milliseconds. *)
Record Entry (V : Type) : Type := mkEntry { value : V; expire : Z }.
Arguments mkEntry {V} _ _.
Arguments value {V} _.
Arguments expire {V} _.

Abbreviation Store V := (gmap JsVal (Entry V)).

(** [cache.put(key, value, time)] at instant [now]. *)
Definition put {V} (key : JsVal) (v : V) (time : Z) (now : Z) (c : Store V) : Store V :=
  <[key := {| value := v; expire := now + time |}]> c.

(** An entry is live until the instant it expires. *)
Definition live {V} (now : Z) (e : Entry V) : bool := now <=? expire e.

(** [cache.get(key)] at instant [now]; [None] is the [null] of a miss. *)
Definition get {V} (key : JsVal) (now : Z) (c : Store V) : option V :=
  match c !! key with
  | Some e => if live now e then Some (value e) else None
  | None => None
  end.

End Cache.

(* ===================================================================== *)
(** ** The service-resolving middleware *)
(* ===================================================================== *)

Module ResolveService.
Import Js.

(** The service object the admin users client resolves to.  It is an object,
    so it is truthy whatever its properties are. *)
Record Service : Type := mkService { service_props : list (string * JsVal) }.

Definition service_value (s : Service) : JsVal := JObj (service_props s).

(** The inbound request, as far as the middleware reads it. *)
Record Req : Type := mkReq {
  chargeId : JsVal;
  chargeData : JsVal;
  headers : gmap string string
}.

(** The response object: [locals_service] is [res.locals.service], [None]
    while the property is not set. *)
Record Res : Type := mkRes { locals_service : option Service }.

(** What the middleware does to its collaborators, in order. *)
Inductive Event : Type :=
| Response (status : string)
| CacheGet (key : JsVal)
| FindServiceBy (correlationId : option string) (gatewayAccountId : JsVal)
| CachePut (key : JsVal) (service : Service) (time : Z)
| LoggerError (message : string)
| Throws (error : string)
| Next.

(** How the promise returned by [findServiceBy] settles. *)
Inductive Settlement : Type :=
| Fulfilled (service : Service)
| Rejected.

(** The outcome of a piece of the middleware: the response object, the cache
    and the calls made. *)
Record Run : Type := mkRun {
  res_after : Res;
  cache_after : Cache.Store Service;
  trace : list Event
}.

(** The synchronous part either finishes the middleware or leaves the
    promise of [findServiceBy] pending, with the account identifier the
    callbacks have captured. *)
Inductive Progress : Type :=
| Finished (r : Run)
| Pending (gatewayAccountId : JsVal) (r : Run).

(** [lodash.get(req, 'chargeData.gateway_account.gateway_account_id')]. *)
Definition gatewayAccountId (req : Req) : JsVal :=
  baseGet (chargeData req) ["gateway_account"; "gateway_account_id"].

(** [!req.chargeId && !req.chargeData]. *)
Definition unauthorised (req : Req) : bool :=
  negb (truthy (chargeId req)) && negb (truthy (chargeData req)).

(** [req.chargeData.gateway_account.serviceName]; [None] when a property is
    read off [undefined] or [null], which throws a TypeError. *)
Definition serviceName (req : Req) : option JsVal :=
  match get_prop (chargeData req) "gateway_account" with
  | Some gateway_account => get_prop gateway_account "serviceName"
  | None => None
  end.

Definition DEFAULT_MAX_AGE : Z := 15 * 60 * 1000.

Section Middleware.

(** The name of the correlation header, a constant of
    [config/correlation_header] (not part of the sources). *)
Variable CORRELATION_HEADER : string.

(** [process.env.SERVICE_CACHE_MAX_AGE], read as a number when it is set. *)
Variable env_SERVICE_CACHE_MAX_AGE : option Z.

Definition SERVICE_CACHE_MAX_AGE : Z := default DEFAULT_MAX_AGE env_SERVICE_CACHE_MAX_AGE.

(** Lines 19-27: up to the call of [findServiceBy].  A cached service is an
    object, so [if (cachedService)] asks whether [get] found a live entry. *)
Definition middleware_sync (now : Z) (req : Req) (res : Res)
    (serviceCache : Cache.Store Service) : Progress :=
  let gatewayAccountId := gatewayAccountId req in
  if unauthorised req then
    Finished {| res_after := res; cache_after := serviceCache;
                trace := [Response "UNAUTHORISED"] |}
  else
    match Cache.get gatewayAccountId now serviceCache with
    | Some cachedService =>
        Finished {| res_after := {| locals_service := Some cachedService |};
                    cache_after := serviceCache;
                    trace := [CacheGet gatewayAccountId; Next] |}
    | None =>
        Pending gatewayAccountId
          {| res_after := res; cache_after := serviceCache;
             trace := [CacheGet gatewayAccountId;
                       FindServiceBy (headers req !! CORRELATION_HEADER) gatewayAccountId] |}
    end.

(** Lines 28-32: the [then] callback, run at instant [now]. *)
Definition on_fulfilled (now : Z) (gatewayAccountId : JsVal) (service : Service)
    (res : Res) (serviceCache : Cache.Store Service) : Run :=
  {| res_after := {| locals_service := Some service |};
     cache_after := Cache.put gatewayAccountId service SERVICE_CACHE_MAX_AGE now serviceCache;
     trace := [CachePut gatewayAccountId service SERVICE_CACHE_MAX_AGE; Next] |}.

(** Lines 33-36: the [catch] callback.  Building the log message reads
    [req.chargeData.gateway_account.serviceName]; when that throws, the
    callback ends there. *)
Definition on_rejected (req : Req) (res : Res)
    (serviceCache : Cache.Store Service) : Run :=
  match serviceName req with
  | Some name =>
      {| res_after := res; cache_after := serviceCache;
         trace := [LoggerError ("Failed to retrieve service information for service: "
                                  ++ to_string name);
                   Next] |}
  | None =>
      {| res_after := res; cache_after := serviceCache;
         trace := [Throws "TypeError"] |}
  end.

(** The callback that runs when the promise settles, for a run in which the
    [then] callback completes: the store accepts the put and [next()]
    returns.  [Chained.settle_chain] has the chain of the two callbacks in
    full. *)
Definition settle (now : Z) (req : Req) (gatewayAccountId : JsVal) (s : Settlement)
    (res : Res) (serviceCache : Cache.Store Service) : Run :=
  match s with
  | Fulfilled service => on_fulfilled now gatewayAccountId service res serviceCache
  | Rejected => on_rejected req res serviceCache
  end.

(** The middleware on one request: the synchronous part at instant [now] and,
    when a fetch was started, its callback at instant [later]. *)
Definition middleware (now : Z) (req : Req) (res : Res)
    (serviceCache : Cache.Store Service) (later : Z) (s : Settlement) : Run :=
  match middleware_sync now req res serviceCache with
  | Finished r => r
  | Pending gatewayAccountId r =>
      let r' := settle later req gatewayAccountId s (res_after r) (cache_after r) in
      {| res_after := res_after r'; cache_after := cache_after r';
         trace := (trace r ++ trace r')%list |}
  end.

(** The process handles many requests over one cache.  Its activity is a
    sequence of steps: a request arrives and runs the synchronous part, or a
    pending fetch settles and runs its callback. *)
Inductive Activity : Type :=
| Arrives (now : Z) (req : Req) (res : Res)
| Settles (now : Z) (req : Req) (gatewayAccountId : JsVal) (s : Settlement) (res : Res).

Definition instant (a : Activity) : Z :=
  match a with
  | Arrives now _ _ => now
  | Settles now _ _ _ _ => now
  end.

Definition act (a : Activity) (serviceCache : Cache.Store Service) : Cache.Store Service :=
  match a with
  | Arrives now req res =>
      match middleware_sync now req res serviceCache with
      | Finished r => cache_after r
      | Pending _ r => cache_after r
      end
  | Settles now req gatewayAccountId s res =>
      cache_after (settle now req gatewayAccountId s res serviceCache)
  end.

Definition replay (acts : list Activity) (serviceCache : Cache.Store Service)
    : Cache.Store Service :=
  fold_left (fun c a => act a c) acts serviceCache.

End Middleware.

(** The step stores no service under the key [k]. *)
Definition quiet (k : JsVal) (a : Activity) : bool :=
  match a with
  | Settles _ _ k' (Fulfilled _) _ => negb (bool_decide (k' = k))
  | _ => true
  end.

(** The key [k] has an entry that does not expire before [deadline]. *)
Definition live_until (k : JsVal) (deadline : Z) (c : Cache.Store Service) : Prop :=
  exists e, c !! k = Some e /\ deadline <= Cache.expire e.

End ResolveService.

(* ===================================================================== *)
(** ** Sample data *)
(* ===================================================================== *)

(** Concrete requests and calls on which the properties below are exercised. *)
Module Sample.
Import Js.

Definition CORRELATION_HEADER : string := "x-request-id".
Definition url : string := "https://svc.internal:8443/x".
Definition proxy : string := "http://proxy.local:3128".

Definition ambient : BaseClient.Segment :=
  {| BaseClient.trace_id := "1-5f84c7a1-aa11"; BaseClient.id := "53995c3f42cd8ad8" |}.
Definition fresh : BaseClient.Segment :=
  {| BaseClient.trace_id := "1-5f84c7a2-bb22"; BaseClient.id := "70de5b6f19ff9a0a" |}.

Definition args : BaseClient.Args :=
  {| BaseClient.correlationId := Some "abc-123"; BaseClient.payload := JUndefined;
     BaseClient.qs := JUndefined; BaseClient.headers := None |}.

Definition args_with_headers : BaseClient.Args :=
  {| BaseClient.correlationId := Some "abc-123"; BaseClient.payload := JUndefined;
     BaseClient.qs := JUndefined;
     BaseClient.headers := Some {[ "Content-Type" := "text/plain" ]} |}.

Definition traced : BaseClient.SegmentData :=
  {| BaseClient.clsSegment := Some ambient; BaseClient.subSegment := None |}.

Definition env_proxy : BaseClient.Env := {| BaseClient.FORWARD_PROXY_URL := Some proxy |}.

Definition charge (account : Z) (name : string) : JsVal :=
  JObj [("gateway_account",
         JObj [("gateway_account_id", JNum account); ("serviceName", JStr name)])].

(** No charge at all; a charge with its data; charge identifiers alone. *)
Definition anonymous : ResolveService.Req :=
  {| ResolveService.chargeId := JUndefined; ResolveService.chargeData := JUndefined;
     ResolveService.headers := ∅ |}.
Definition shopper : ResolveService.Req :=
  {| ResolveService.chargeId := JStr "ch_7"; ResolveService.chargeData := charge 7 "shop";
     ResolveService.headers := {[ "x-request-id" := "abc-123" ]} |}.

Definition service : ResolveService.Service :=
  {| ResolveService.service_props := [("name", JStr "shop")] |}.

Definition res : ResolveService.Res := {| ResolveService.locals_service := None |}.

End Sample.

(* ===================================================================== *)
(** ** The connection agents of the client *)
(* ===================================================================== *)

Module Agents.
Import Js.

(** [process.env], as far as the agent options read it. *)
Record Env : Type := mkEnv {
  MAX_SOCKETS : option string;
  DISABLE_INTERNAL_HTTPS : option string
}.

Section Certificates.

(** What [customCertificate.getCertOptions()] returns; the module
    [./custom_certificate] is not part of the sources. *)
Variable Cert : Type.
Variable getCertOptions : Cert.

(** [agentOptions] once the module is loaded; [ca] is [None] while the
    property is not set. *)
Record AgentOptions : Type := mkAgentOptions {
  keepAlive : bool;
  maxSockets : JsVal;
  ca : option Cert
}.

(** [process.env.MAX_SOCKETS || 100]: the text of the variable, or the number. *)
Definition max_sockets (env : Env) : JsVal :=
  match MAX_SOCKETS env with
  | Some n => if String.eqb n "" then JNum 100 else JStr n
  | None => JNum 100
  end.

(** Lines 17-34: the options and the warnings logged while they are built. *)
Definition agentOptions (env : Env) : AgentOptions * list string :=
  let options := {| keepAlive := true; maxSockets := max_sockets env; ca := None |} in
  match DISABLE_INTERNAL_HTTPS env with
  | Some flag =>
      if String.eqb flag "true"
      then (options, ["DISABLE_INTERNAL_HTTPS is set."])
      else ({| keepAlive := keepAlive options; maxSockets := maxSockets options;
               ca := Some getCertOptions |}, [])
  | None =>
      ({| keepAlive := keepAlive options; maxSockets := maxSockets options;
          ca := Some getCertOptions |}, [])
  end.

(** The options an agent was constructed with: [httpsAgent] is
    [new https.Agent(agentOptions)]; [httpAgent] is the global agent of
    [http], which this module does not construct ([None]). *)
Definition constructed_with (env : Env) (a : BaseClient.Agent) : option AgentOptions :=
  match a with
  | BaseClient.httpsAgent => Some (fst (agentOptions env))
  | BaseClient.httpAgent => None
  end.

End Certificates.

End Agents.

(* ===================================================================== *)
(** ** The server set-up script *)
(* ===================================================================== *)

Module Server.
Import Js.

(** [process.env], as far as the script reads it. *)
Record Env : Type := mkEnv {
  ENABLE_NEWRELIC : option string;
  PORT : option string;
  ANALYTICS_TRACKING_ID : option string;
  NODE_ENV : option string
}.

(** [res.locals]: an object used as a dictionary. *)
Abbreviation Locals := (gmap string JsVal).

Inductive Effect : Type :=
| LoggerWarn (message : string)
| Next.

(** Lines 32-41: the middleware that fills in the locals of every response. *)
Definition locals_middleware (env : Env) (locals : Locals) : Locals * list Effect :=
  let locals := <["assetPath" := JStr "/public/"]> locals in
  match ANALYTICS_TRACKING_ID env with
  | None =>
      (<["analyticsTrackingId" := JStr ""]> locals,
       [LoggerWarn "Google Analytics Tracking ID [ANALYTICS_TRACKING_ID] is not set"; Next])
  | Some trackingId =>
      (<["analyticsTrackingId" := JStr trackingId]> locals, [Next])
  end.

(** [process.env.PORT || 3000]. *)
Definition port (env : Env) : JsVal :=
  match PORT env with
  | Some p => if String.eqb p "" then JNum 3000 else JStr p
  | None => JNum 3000
  end.

(** The request handlers the script installs. *)
Inductive Handler : Type :=
| ClientSessions
| BodyParserJson
| BodyParserUrlencoded (extended : bool)
| Static (root : string)
| Favicon (icon : string)
| LocalsMiddleware
| Errorhandler.

(** The calls the script makes on the application, and the modules it loads
    on a condition. *)
Inductive Step : Type :=
| Require (module : string)
| Enable (setting : string)
| Use (mount : option string) (handler : Handler)
| Engine (extension : string)
| SetOption (setting value : string)
| RoutesBind
| Listen (port : JsVal)
| ConsoleLog (message : string).

(** [path.join] on segments that need no normalising. *)
Definition path_join (segments : list string) : string := String.concat "/" segments.

(** The script, top to bottom.  [dirname] is [__dirname]. *)
Definition server (dirname : string) (env : Env) : list Step :=
  ((match ENABLE_NEWRELIC env with
    | Some flag => if String.eqb flag "yes" then [Require "newrelic"] else []
    | None => []
    end)
   ++ [Enable "trust proxy";
       Use None ClientSessions;
       Engine "html";
       SetOption "view engine" "html";
       SetOption "vendorViews" (dirname ++ "/govuk_modules/govuk_template/views/layouts");
       SetOption "views" (dirname ++ "/app/views");
       Use None BodyParserJson;
       Use None (BodyParserUrlencoded true);
       Use (Some "/public/javascripts") (Static (dirname ++ "/public/assets/javascripts"));
       Use (Some "/public") (Static (dirname ++ "/public"));
       Use (Some "/public") (Static (dirname ++ "/govuk_modules/govuk_template/assets"));
       Use (Some "/public") (Static (dirname ++ "/govuk_modules/govuk_frontend_toolkit"));
       Use None (Favicon (path_join [dirname; "govuk_modules"; "govuk_template"; "assets";
                                     "images"; "favicon.ico"]));
       Use None LocalsMiddleware]
   ++ (match NODE_ENV env with
       | Some mode =>
           if String.eqb mode "production" then []
           else [Require "errorhandler"; Use None Errorhandler]
       | None => [Require "errorhandler"; Use None Errorhandler]
       end)
   ++ [RoutesBind;
       Listen (port env);
       ConsoleLog ("Listening on port " ++ to_string (port env));
       ConsoleLog ""])%list.

Definition is_use (s : Step) : bool :=
  match s with Use _ _ => true | _ => false end.

End Server.

(* ===================================================================== *)
(** ** Reading a trace of the middleware *)
(* ===================================================================== *)

Module Outcome.
Import ResolveService.

Definition is_response (e : Event) : bool :=
  match e with Response _ => true | _ => false end.
Definition is_next (e : Event) : bool :=
  match e with Next => true | _ => false end.
Definition is_throw (e : Event) : bool :=
  match e with Throws _ => true | _ => false end.
Definition is_fetch (e : Event) : bool :=
  match e with FindServiceBy _ _ => true | _ => false end.
Definition is_put (e : Event) : bool :=
  match e with CachePut _ _ _ => true | _ => false end.

(** The events that end a run: the response, the next stage, an exception. *)
Definition is_end (e : Event) : bool := is_response e || is_next e || is_throw e.

Definition count (p : Event -> bool) (t : list Event) : nat :=
  length (List.filter p t).

(** The last event of a trace. *)
Fixpoint final (t : list Event) : option Event :=
  match t with
  | [] => None
  | [e] => Some e
  | _ :: t' => final t'
  end.

End Outcome.

(* ===================================================================== *)
(** ** The promise chain of the middleware *)
(* ===================================================================== *)

(** Lines 26-36 chain [.catch] after [.then]: the [catch] callback runs when
    [findServiceBy] rejects and also when the [then] callback throws.  The
    [then] callback calls [serviceCache.put] and [next()], and either can
    throw. *)
Module Chained.
Import Js ResolveService.

(** The store checks the time-to-live it is given: [put] throws unless it is
    a positive number of milliseconds. *)
Definition put_accepts (time : Z) : bool := 0 <? time.

Section Chain.

Variable CORRELATION_HEADER : string.
Variable env_SERVICE_CACHE_MAX_AGE : option Z.

(** Whether [next()] throws when the [then] callback invokes it.  (An
    exception of [next()] in the synchronous part or in the [catch] callback
    leaves the middleware and changes nothing of what it does.) *)
Variable next_throws : bool.

(** Lines 33-36: the [catch] callback. *)
Definition catch_callback (req : Req) (res : Res)
    (serviceCache : Cache.Store Service) : Run :=
  on_rejected req res serviceCache.

(** Lines 28-32: the [then] callback at instant [now], and the [catch]
    callback after it when it throws.  A put that throws leaves lines 30-31
    unreached; a [next()] that throws has the put and the assignment
    behind it. *)
Definition then_callback (now : Z) (req : Req) (gatewayAccountId : JsVal)
    (service : Service) (res : Res) (serviceCache : Cache.Store Service) : Run :=
  let time := SERVICE_CACHE_MAX_AGE env_SERVICE_CACHE_MAX_AGE in
  if put_accepts time then
    let serviceCache' := Cache.put gatewayAccountId service time now serviceCache in
    let res' := {| locals_service := Some service |} in
    if next_throws then
      let caught := catch_callback req res' serviceCache' in
      {| res_after := res_after caught; cache_after := cache_after caught;
         trace := ([CachePut gatewayAccountId service time; Next] ++ trace caught)%list |}
    else
      {| res_after := res'; cache_after := serviceCache';
         trace := [CachePut gatewayAccountId service time; Next] |}
  else catch_callback req res serviceCache.

Definition settle_chain (now : Z) (req : Req) (gatewayAccountId : JsVal)
    (s : Settlement) (res : Res) (serviceCache : Cache.Store Service) : Run :=
  match s with
  | Fulfilled service => then_callback now req gatewayAccountId service res serviceCache
  | Rejected => catch_callback req res serviceCache
  end.

(** The middleware on one request, with the chain of its callbacks. *)
Definition middleware_chain (now : Z) (req : Req) (res : Res)
    (serviceCache : Cache.Store Service) (later : Z) (s : Settlement) : Run :=
  match middleware_sync CORRELATION_HEADER now req res serviceCache with
  | Finished r => r
  | Pending gatewayAccountId r =>
      let r' := settle_chain later req gatewayAccountId s (res_after r) (cache_after r) in
      {| res_after := res_after r'; cache_after := cache_after r';
         trace := (trace r ++ trace r')%list |}
  end.

End Chain.

(** The activity of the process over one cache, each settling fetch with
    the behaviour of [next()] in its [then] callback. *)
Inductive Activity : Type :=
| Arrives (now : Z) (req : Req) (res : Res)
| Settles (next_throws : bool) (now : Z) (req : Req) (gatewayAccountId : JsVal)
    (s : Settlement) (res : Res).

Definition instant (a : Activity) : Z :=
  match a with
  | Arrives now _ _ => now
  | Settles _ now _ _ _ _ => now
  end.

Definition act (CORRELATION_HEADER : string) (env_SERVICE_CACHE_MAX_AGE : option Z)
    (a : Activity) (serviceCache : Cache.Store Service) : Cache.Store Service :=
  match a with
  | Arrives now req res =>
      match middleware_sync CORRELATION_HEADER now req res serviceCache with
      | Finished r => cache_after r
      | Pending _ r => cache_after r
      end
  | Settles next_throws now req gatewayAccountId s res =>
      cache_after (settle_chain env_SERVICE_CACHE_MAX_AGE next_throws
                     now req gatewayAccountId s res serviceCache)
  end.

Definition replay (CORRELATION_HEADER : string) (env_SERVICE_CACHE_MAX_AGE : option Z)
    (acts : list Activity) (serviceCache : Cache.Store Service) : Cache.Store Service :=
  fold_left (fun c a => act CORRELATION_HEADER env_SERVICE_CACHE_MAX_AGE a c)
    acts serviceCache.

(** The step stores no service under the key [k]. *)
Definition quiet (k : JsVal) (a : Activity) : bool :=
  match a with
  | Settles _ _ _ k' (Fulfilled _) _ => negb (bool_decide (k' = k))
  | _ => true
  end.

End Chained.

(* ===================================================================== *)
(** * Properties of the outbound request client *)
(* ===================================================================== *)

Module ClientFacts.
Import Js Url BaseClient.

(** ** URL parsing *)

Lemma split_port_not_empty (h : string) : snd (split_port h) <> Some "".
Proof.
  unfold split_port.
  destruct (split_last 58 h) as [[name digits] |]; simpl; [| discriminate].
  destruct (all_chars is_digit digits); simpl; [| discriminate].
  destruct (String.eqb digits "") eqn:E; [discriminate |].
  intros [= ->]. discriminate.
Qed.

Lemma urlParse_port_not_empty (url : string) : port (urlParse url) <> Some "".
Proof.
  unfold urlParse.
  destruct (split_protocol url) as [proto after].
  destruct (match drop_prefix "//" after with
            | Some r => match proto with Some _ => (true, r) | None => (false, after) end
            | None => (false, after)
            end) as [sl after'].
  destruct (match proto with
            | Some p => negb (mem p hostlessProtocol) && (sl || negb (mem p slashedProtocol))
            | None => false
            end); [| discriminate].
  destruct (break is_host_ending after') as [authority ?].
  destruct (match split_last 64 authority with
            | Some (a, _) => _
            | None => _
            end) as [au after''].
  destruct (break is_non_host after'') as [hostport rst].
  pose proof (split_port_not_empty hostport) as Hp.
  destruct (split_port hostport) as [name p]. exact Hp.
Qed.

Lemma port_suffix_spec (p : option string) :
  p <> Some "" ->
  port_suffix p = match p with Some d => ":" ++ d | None => "" end.
Proof.
  destruct p as [d |]; [| reflexivity].
  intros Hd. unfold port_suffix.
  destruct (String.eqb_spec d ""); [subst; contradiction | reflexivity].
Qed.

Lemma hostname_needs_text (url h : string) :
  hostname (urlParse url) = Some h -> String.eqb url "" = false.
Proof. destruct url; [discriminate | reflexivity]. Qed.

(** ** Header computation *)

Lemma or_else_empty (a : option string) : or_else a "" = default "" a.
Proof.
  destruct a as [s |]; [| reflexivity].
  simpl. destruct (String.eqb_spec s ""); congruence.
Qed.

Section Headers.

Variable CORRELATION_HEADER_NAME : string.
Variable fresh : Segment.

Lemma basicHeaders_content_type args url :
  CORRELATION_HEADER_NAME <> "Content-Type" ->
  basicHeaders CORRELATION_HEADER_NAME args url !! "Content-Type" = Some "application/json".
Proof.
  intros Hc. unfold basicHeaders.
  destruct (String.eqb url ""); by simplify_map_eq.
Qed.

Lemma basicHeaders_correlation args url :
  CORRELATION_HEADER_NAME <> "host" ->
  basicHeaders CORRELATION_HEADER_NAME args url !! CORRELATION_HEADER_NAME
    = Some (default "" (correlationId args)).
Proof.
  intros Hh. unfold basicHeaders. rewrite or_else_empty.
  destruct (String.eqb url ""); by simplify_map_eq.
Qed.

Lemma basicHeaders_host args url :
  String.eqb url "" = false ->
  basicHeaders CORRELATION_HEADER_NAME args url !! "host" = Some (host_of url).
Proof.
  intros Hu. unfold basicHeaders. rewrite Hu. by rewrite lookup_insert_eq.
Qed.

Lemma basicHeaders_no_trace args url :
  CORRELATION_HEADER_NAME <> "X-Amzn-Trace-Id" ->
  basicHeaders CORRELATION_HEADER_NAME args url !! "X-Amzn-Trace-Id" = None.
Proof.
  intros Ht. unfold basicHeaders.
  destruct (String.eqb url ""); by simplify_map_eq.
Qed.

(** The trace header is the only thing lines 57-66 add. *)
Lemma computedHeaders_other args seg url k :
  k <> "X-Amzn-Trace-Id" ->
  computedHeaders CORRELATION_HEADER_NAME fresh args seg url !! k
    = basicHeaders CORRELATION_HEADER_NAME args url !! k.
Proof.
  intros Hk. unfold computedHeaders.
  destruct (clsSegment seg); [by rewrite lookup_insert_ne | reflexivity].
Qed.

Lemma host_of_spec url h :
  hostname (urlParse url) = Some h ->
  host_of url = h ++ match port (urlParse url) with Some p => ":" ++ p | None => "" end.
Proof.
  intros Hh. unfold host_of. rewrite Hh.
  by rewrite (port_suffix_spec _ (urlParse_port_not_empty url)).
Qed.

(** Without caller headers, [getHeaders] returns the computed headers. *)
Lemma getHeaders_no_extra args seg url :
  headers args = None ->
  getHeaders CORRELATION_HEADER_NAME fresh args seg url
    = computedHeaders CORRELATION_HEADER_NAME fresh args seg url.
Proof. intros H. unfold getHeaders. by rewrite H. Qed.

End Headers.

(** ** The header contract *)

(** C5.  Whatever the call, the computed headers carry [Content-Type:
    application/json] and the correlation header, whose value is the caller's
    [correlationId], or the empty string when there is none; when the target
    URL has a host name, the [host] header is that name, followed by a colon
    and the port when the URL has one.  In particular, for
    [https://svc.internal:8443/x] and no caller headers, the headers returned
    hold [host: svc.internal:8443] and [Content-Type: application/json].
    The correlation header is assumed not to be named like one of the three
    fixed headers. *)
Theorem computed_headers_content_type_correlation_host
    (CORRELATION_HEADER_NAME : string) (fresh : Segment) (args : Args)
    (segmentData : SegmentData) (url : string) :
  CORRELATION_HEADER_NAME <> "Content-Type" ->
  CORRELATION_HEADER_NAME <> "host" ->
  CORRELATION_HEADER_NAME <> "X-Amzn-Trace-Id" ->
  let computed := computedHeaders CORRELATION_HEADER_NAME fresh args segmentData url in
  computed !! "Content-Type" = Some "application/json"
  /\ computed !! CORRELATION_HEADER_NAME
       = Some (match correlationId args with Some c => c | None => "" end)
  /\ (forall h, hostname (urlParse url) = Some h ->
        computed !! "host"
          = Some (h ++ match port (urlParse url) with Some p => ":" ++ p | None => "" end))
  /\ (headers args = None ->
        let returned :=
          getHeaders CORRELATION_HEADER_NAME fresh args segmentData
            "https://svc.internal:8443/x" in
        returned !! "host" = Some "svc.internal:8443"
        /\ returned !! "Content-Type" = Some "application/json").
Proof.
  intros Hct Hhost Htrace computed. subst computed.
  repeat split.
  - rewrite computedHeaders_other by discriminate.
    by apply basicHeaders_content_type.
  - rewrite computedHeaders_other by assumption.
    rewrite basicHeaders_correlation by assumption.
    by destruct (correlationId args).
  - intros h Hh.
    rewrite computedHeaders_other by discriminate.
    rewrite basicHeaders_host by (by eapply hostname_needs_text).
    by rewrite (host_of_spec _ _ Hh).
  - rewrite getHeaders_no_extra by assumption.
    rewrite computedHeaders_other by discriminate.
    by rewrite basicHeaders_host.
  - rewrite getHeaders_no_extra by assumption.
    rewrite computedHeaders_other by discriminate.
    by apply basicHeaders_content_type.
Qed.

(** C6.  When a trace segment is active, the computed headers hold
    [X-Amzn-Trace-Id] with the value [Root=<trace id>;Parent=<child id>;Sampled=1],
    the child being the sub-segment handed in by the caller or else the
    segment synthesized for the request; when no segment is active, the
    computed headers hold no trace header.  A request issued under that
    segment data carries the computed trace header, unless the caller
    supplies one of that name. *)
Theorem trace_header_when_segment_active
    (CORRELATION_HEADER_NAME : string) (fresh : Segment) (args : Args)
    (segmentData : SegmentData) (url : string) :
  CORRELATION_HEADER_NAME <> "X-Amzn-Trace-Id" ->
  let computed := computedHeaders CORRELATION_HEADER_NAME fresh args segmentData url in
  (forall cls, clsSegment segmentData = Some cls ->
     let childSegmentId :=
       match subSegment segmentData with
       | Some provided => id provided
       | None => id fresh
       end in
     computed !! "X-Amzn-Trace-Id"
       = Some ("Root=" ++ trace_id cls ++ ";Parent=" ++ childSegmentId ++ ";Sampled=1"))
  /\ (clsSegment segmentData = None -> computed !! "X-Amzn-Trace-Id" = None)
  /\ (forall env methodName,
        match headers args with
        | Some extra => extra !! "X-Amzn-Trace-Id"
        | None => None
        end = None ->
        req_headers
          (snd (_request CORRELATION_HEADER_NAME env (clsSegment segmentData) fresh
                  methodName url args (subSegment segmentData)))
          !! "X-Amzn-Trace-Id"
        = computed !! "X-Amzn-Trace-Id").
Proof.
  intros Htrace computed. subst computed. split; [| split].
  - intros cls Hcls. cbv zeta. unfold computedHeaders.
    rewrite Hcls, lookup_insert_eq.
    by destruct (subSegment segmentData).
  - intros Hnone. unfold computedHeaders. rewrite Hnone.
    by apply basicHeaders_no_trace.
  - intros env methodName Hcaller. unfold _request. simpl.
    destruct segmentData as [cls sub]. simpl.
    unfold getHeaders, merge. simpl.
    destruct (headers args) as [extra |]; [| reflexivity].
    by apply lookup_union_r.
Qed.

(** C7.  The caller's headers are merged onto the computed ones: a header
    the caller supplies has the caller's value in the result, whichever
    computed header it collides with, and every other computed header is kept. *)
Theorem caller_headers_override_computed
    (CORRELATION_HEADER_NAME : string) (fresh : Segment) (args : Args)
    (segmentData : SegmentData) (url : string) (extra : Headers) :
  headers args = Some extra ->
  let computed := computedHeaders CORRELATION_HEADER_NAME fresh args segmentData url in
  let returned := getHeaders CORRELATION_HEADER_NAME fresh args segmentData url in
  (forall name v, extra !! name = Some v -> returned !! name = Some v)
  /\ (forall name, extra !! name = None -> returned !! name = computed !! name).
Proof.
  intros Hextra computed returned. subst computed returned.
  unfold getHeaders, merge. rewrite Hextra. split.
  - intros name v Hv. by apply lookup_union_Some_l.
  - intros name Hnone. by apply lookup_union_r.
Qed.

(** ** The retry policy *)

Lemma retryOnEconnreset_spec (err : option Err) :
  retryOnEconnreset err = true
  <-> exists e, err = Some e /\ exists c, code e = Some c /\ In c RETRIABLE_ERRORS.
Proof.
  unfold retryOnEconnreset, includes. split.
  - destruct err as [[[c |]] |]; try discriminate.
    intros H. apply existsb_exists in H as (x & Hin & Heq).
    apply String.eqb_eq in Heq as ->.
    exists {| code := Some x |}. split; [reflexivity |]. by exists x.
  - intros (e & -> & c & -> & Hin).
    apply existsb_exists. exists c. split; [assumption | apply String.eqb_refl].
Qed.

Lemma retryOnEconnreset_other (e : Err) :
  code e <> Some "ECONNRESET" -> retryOnEconnreset (Some e) = false.
Proof.
  intros H. destruct e as [[c |]]; simpl in *; [| reflexivity].
  destruct (String.eqb_spec c "ECONNRESET"); [subst; contradiction | reflexivity].
Qed.

(** One attempt, then the reply, when the first outcome is not retried. *)
Lemma client_no_retry (world : nat -> Attempt) :
  retryOnEconnreset (attempt_err (world 1%nat)) = false ->
  client world = [Try 1 (world 1%nat); Reply (world 1%nat)].
Proof. intros H. unfold client. simpl. by rewrite H. Qed.

(** The retry predicate on the first three outcomes of [world]. *)
Ltac case_retries world :=
  destruct (retryOnEconnreset (attempt_err (world 1%nat))) eqn:?;
  destruct (retryOnEconnreset (attempt_err (world 2%nat))) eqn:?;
  destruct (retryOnEconnreset (attempt_err (world 3%nat))) eqn:?.

(** A second attempt is made exactly when the first is to be retried, and a
    third exactly when the first two are. *)
Lemma client_retries (world : nat -> Attempt) :
  ((exists o, In (Try 2 o) (client world))
   <-> retryOnEconnreset (attempt_err (world 1%nat)) = true)
  /\ ((exists o, In (Try 3 o) (client world))
      <-> retryOnEconnreset (attempt_err (world 1%nat)) = true
          /\ retryOnEconnreset (attempt_err (world 2%nat)) = true).
Proof.
  unfold client. simpl. case_retries world; simpl; split; split;
    try (intros [o Hin]; simpl in Hin; intuition discriminate);
    try (intros; intuition discriminate);
    try (intros _; eexists; simpl; eauto 6).
Qed.

(** C8.  An attempt is retried exactly when it failed with an error whose
    code is in the allow-list, which holds ECONNRESET only, and attempts
    remain; a call makes at most 3 attempts, with 5000 ms between consecutive
    ones.  When every attempt ends in a connection reset, exactly 3 attempts
    are made and the third error is handed to the caller; an HTTP response,
    whatever its status, and an error with another code are handed over
    after one attempt. *)
Theorem retry_policy_econnreset_three_attempts (world : nat -> Attempt) :
  (forall err : option Err,
     retryStrategy client_defaults err = true
     <-> exists e, err = Some e /\ exists c, code e = Some c /\ In c RETRIABLE_ERRORS)
  /\ RETRIABLE_ERRORS = ["ECONNRESET"]
  /\ ((exists o, In (Try 2 o) (client world))
      <-> retryStrategy client_defaults (attempt_err (world 1%nat)) = true)
  /\ ((exists o, In (Try 3 o) (client world))
      <-> retryStrategy client_defaults (attempt_err (world 1%nat)) = true
          /\ retryStrategy client_defaults (attempt_err (world 2%nat)) = true)
  /\ (attempts (client world) <= 3)%nat
  /\ length (waits (client world)) = (attempts (client world) - 1)%nat
  /\ Forall (fun ms => ms = 5000) (waits (client world))
  /\ ((forall n, exists e, world n = Errored e /\ code e = Some "ECONNRESET") ->
       attempts (client world) = 3%nat
       /\ waits (client world) = [5000; 5000]
       /\ replies (client world) = [world 3%nat])
  /\ (forall status, world 1%nat = Responded status ->
       attempts (client world) = 1%nat
       /\ waits (client world) = []
       /\ replies (client world) = [Responded status])
  /\ (forall e, world 1%nat = Errored e -> code e <> Some "ECONNRESET" ->
       attempts (client world) = 1%nat
       /\ waits (client world) = []
       /\ replies (client world) = [Errored e]).
Proof.
  split; [exact retryOnEconnreset_spec |].
  split; [reflexivity |].
  split; [exact (proj1 (client_retries world)) |].
  split; [exact (proj2 (client_retries world)) |].
  assert (Hshape :
    (attempts (client world) <= 3)%nat
    /\ length (waits (client world)) = (attempts (client world) - 1)%nat
    /\ Forall (fun ms => ms = 5000) (waits (client world))).
  { unfold client. simpl.
    case_retries world; unfold attempts, waits; simpl;
      (split; [lia | split; [reflexivity | repeat constructor]]). }
  destruct Hshape as (Hmax & Hlen & Hdelay).
  do 3 (split; [assumption |]).
  split; [| split].
  - intros Hreset. unfold client. simpl.
    destruct (Hreset 1%nat) as (e1 & -> & H1).
    destruct (Hreset 2%nat) as (e2 & -> & H2).
    destruct (Hreset 3%nat) as (e3 & -> & H3).
    simpl. by rewrite H1, H2, H3.
  - intros status Hfirst.
    rewrite client_no_retry by (by rewrite Hfirst).
    by rewrite Hfirst.
  - intros e Hfirst Hcode.
    rewrite client_no_retry by (rewrite Hfirst; by apply retryOnEconnreset_other).
    by rewrite Hfirst.
Qed.

(** A connection that is reset three times, and a 500 response. *)
Lemma retry_policy_witness :
  attempts (client (fun _ => Errored {| code := Some "ECONNRESET" |})) = 3%nat
  /\ attempts (client (fun _ => Responded 500)) = 1%nat.
Proof.
  split.
  - apply (retry_policy_econnreset_three_attempts
             (fun _ => Errored {| code := Some "ECONNRESET" |})).
    intros n. exists {| code := Some "ECONNRESET" |}. split; reflexivity.
  - apply (retry_policy_econnreset_three_attempts (fun _ => Responded 500)) with (status := 500).
    reflexivity.
Defined.

(** ** Routing through a forward proxy *)

Lemma truthy_env_set (proxy : string) :
  proxy <> "" -> truthy_env (Some proxy) = true.
Proof.
  intros H. simpl. destruct (String.eqb_spec proxy ""); [contradiction | reflexivity].
Qed.

(** C9, as the code has it.  With a forward proxy configured, the request
    connects to the proxy's host name and port, while the headers are
    computed from the original URL: the [host] header (unless the caller
    supplies one) and the debug line that logs the headers name the logical
    destination, not the proxy. *)
Theorem forward_proxy_rewrites_target_not_headers
    (CORRELATION_HEADER_NAME : string) (env : Env) (ambient : option Segment)
    (fresh : Segment) (methodName url : string) (args : Args)
    (subSegment : option Segment) (proxy : string) :
  FORWARD_PROXY_URL env = Some proxy ->
  proxy <> "" ->
  let result :=
    _request CORRELATION_HEADER_NAME env ambient fresh methodName url args subSegment in
  let requestOptions := snd result in
  transport_target (uri requestOptions)
    = (hostname (urlParse proxy), port (urlParse proxy))
  /\ req_headers requestOptions
       = getHeaders CORRELATION_HEADER_NAME fresh args
           {| clsSegment := ambient; subSegment := subSegment |} url
  /\ (url <> "" ->
       match headers args with Some extra => extra !! "host" | None => None end = None ->
       req_headers requestOptions !! "host" = Some (host_of url))
  /\ In (DebugHeaders (basicHeaders CORRELATION_HEADER_NAME args url)) (fst result)
  /\ (forall logged, In (DebugHeaders logged) (fst result) ->
       logged = basicHeaders CORRELATION_HEADER_NAME args url)
  /\ (url <> "" ->
       basicHeaders CORRELATION_HEADER_NAME args url !! "host" = Some (host_of url)).
Proof.
  intros Henv Hproxy result requestOptions. subst requestOptions result.
  unfold _request. rewrite Henv, (truthy_env_set _ Hproxy). simpl.
  assert (Hurl : url <> "" -> String.eqb url "" = false).
  { intros Hu. by destruct (String.eqb_spec url ""). }
  split; [reflexivity |]. split; [reflexivity |].
  split; [| split; [| split; [| intros Hu; by apply basicHeaders_host, Hurl]]].
  - intros Hu Hcaller. unfold getHeaders, merge.
    destruct (headers args) as [extra |].
    + rewrite lookup_union_r by assumption.
      rewrite computedHeaders_other by discriminate.
      by apply basicHeaders_host, Hurl.
    + rewrite computedHeaders_other by discriminate.
      by apply basicHeaders_host, Hurl.
  - right. by left.
  - intros logged [H | [H | []]]; [discriminate | by injection H as <-].
Qed.

(** Without a forward proxy (the variable unset or empty), the request is
    issued to the URL as given, and connects to the URL's own host and port. *)
Theorem without_proxy_request_goes_to_url
    (CORRELATION_HEADER_NAME : string) (env : Env) (ambient : option Segment)
    (fresh : Segment) (methodName url : string) (args : Args)
    (subSegment : option Segment) :
  truthy_env (FORWARD_PROXY_URL env) = false ->
  let requestOptions :=
    snd (_request CORRELATION_HEADER_NAME env ambient fresh methodName url args subSegment) in
  uri requestOptions = UriString url
  /\ transport_target (uri requestOptions) = (hostname (urlParse url), port (urlParse url))
  /\ method requestOptions = methodName.
Proof.
  intros Henv requestOptions. subst requestOptions.
  unfold _request. rewrite Henv. simpl. repeat split.
Qed.

(** The agent of a request, by the protocol of the parsed target URL. *)
Lemma agent_follows_scheme
    (CORRELATION_HEADER_NAME : string) (env : Env) (ambient : option Segment)
    (fresh : Segment) (methodName url : string) (args : Args)
    (subSegment : option Segment) :
  agent (snd (_request CORRELATION_HEADER_NAME env ambient fresh methodName url args
                subSegment))
  = if bool_decide (protocol (urlParse url) = Some "http:") then httpAgent else httpsAgent.
Proof.
  unfold _request. simpl.
  destruct (protocol (urlParse url)) as [p |]; [| reflexivity].
  destruct (String.eqb_spec p "http:") as [-> | Hne]; [reflexivity |].
  rewrite bool_decide_eq_false_2; [reflexivity | congruence].
Qed.

(** ** The properties on the sample call *)

Lemma without_proxy_witness :
  truthy_env (FORWARD_PROXY_URL {| FORWARD_PROXY_URL := None |}) = false
  /\ transport_target
        (uri (snd (_request Sample.CORRELATION_HEADER {| FORWARD_PROXY_URL := None |} None
                     Sample.fresh "POST" Sample.url Sample.args None)))
      = (Some "svc.internal", Some "8443").
Proof.
  split; [reflexivity |].
  exact (proj1 (proj2 (without_proxy_request_goes_to_url
                         Sample.CORRELATION_HEADER {| FORWARD_PROXY_URL := None |} None
                         Sample.fresh "POST" Sample.url Sample.args None eq_refl))).
Defined.

Lemma computed_headers_witness :
  Sample.CORRELATION_HEADER <> "Content-Type"
  /\ Sample.CORRELATION_HEADER <> "host"
  /\ Sample.CORRELATION_HEADER <> "X-Amzn-Trace-Id"
  /\ computedHeaders Sample.CORRELATION_HEADER Sample.fresh Sample.args Sample.traced
        Sample.url !! "Content-Type" = Some "application/json"
  /\ computedHeaders Sample.CORRELATION_HEADER Sample.fresh Sample.args Sample.traced
        Sample.url !! Sample.CORRELATION_HEADER = Some "abc-123"
  /\ computedHeaders Sample.CORRELATION_HEADER Sample.fresh Sample.args Sample.traced
        Sample.url !! "host" = Some "svc.internal:8443".
Proof.
  assert (H1 : Sample.CORRELATION_HEADER <> "Content-Type") by discriminate.
  assert (H2 : Sample.CORRELATION_HEADER <> "host") by discriminate.
  assert (H3 : Sample.CORRELATION_HEADER <> "X-Amzn-Trace-Id") by discriminate.
  destruct (computed_headers_content_type_correlation_host
              Sample.CORRELATION_HEADER Sample.fresh Sample.args Sample.traced Sample.url
              H1 H2 H3) as (Hct & Hcorr & Hhost & _).
  split; [exact H1 | split; [exact H2 | split; [exact H3 |]]].
  split; [exact Hct | split; [exact Hcorr |]].
  exact (Hhost "svc.internal" eq_refl).
Defined.

Lemma trace_header_witness :
  Sample.CORRELATION_HEADER <> "X-Amzn-Trace-Id"
  /\ clsSegment Sample.traced = Some Sample.ambient
  /\ computedHeaders Sample.CORRELATION_HEADER Sample.fresh Sample.args Sample.traced
        Sample.url !! "X-Amzn-Trace-Id"
      = Some "Root=1-5f84c7a1-aa11;Parent=70de5b6f19ff9a0a;Sampled=1".
Proof.
  assert (H : Sample.CORRELATION_HEADER <> "X-Amzn-Trace-Id") by discriminate.
  split; [exact H | split; [reflexivity |]].
  exact (proj1 (trace_header_when_segment_active
                  Sample.CORRELATION_HEADER Sample.fresh Sample.args Sample.traced
                  Sample.url H) Sample.ambient eq_refl).
Defined.

Lemma caller_headers_witness :
  headers Sample.args_with_headers = Some {[ "Content-Type" := "text/plain" ]}
  /\ getHeaders Sample.CORRELATION_HEADER Sample.fresh Sample.args_with_headers
        Sample.traced Sample.url !! "Content-Type" = Some "text/plain".
Proof.
  split; [reflexivity |].
  exact (proj1 (caller_headers_override_computed
                  Sample.CORRELATION_HEADER Sample.fresh Sample.args_with_headers
                  Sample.traced Sample.url {[ "Content-Type" := "text/plain" ]} eq_refl)
           "Content-Type" "text/plain" eq_refl).
Defined.

Lemma forward_proxy_witness :
  FORWARD_PROXY_URL Sample.env_proxy = Some Sample.proxy
  /\ Sample.proxy <> ""
  /\ transport_target
        (uri (snd (_request Sample.CORRELATION_HEADER Sample.env_proxy (Some Sample.ambient)
                     Sample.fresh "GET" Sample.url Sample.args None)))
      = (Some "proxy.local", Some "3128")
  /\ req_headers
        (snd (_request Sample.CORRELATION_HEADER Sample.env_proxy (Some Sample.ambient)
                Sample.fresh "GET" Sample.url Sample.args None)) !! "host"
      = Some "svc.internal:8443".
Proof.
  assert (Hp : Sample.proxy <> "") by discriminate.
  destruct (forward_proxy_rewrites_target_not_headers
              Sample.CORRELATION_HEADER Sample.env_proxy (Some Sample.ambient) Sample.fresh
              "GET" Sample.url Sample.args None Sample.proxy eq_refl Hp)
    as (Htarget & _ & Hhost & _).
  split; [reflexivity | split; [exact Hp | split; [exact Htarget |]]].
  apply Hhost; [discriminate | reflexivity].
Defined.

(** C9 as the specification words it does not hold.  With the proxy
    configured the target line of the log is not computed from the target
    URL: it is the same text for two different targets, and names neither.
    Without a proxy the line names the URL. *)
Lemma forward_proxy_target_line_is_not_the_url :
  head (fst (_request Sample.CORRELATION_HEADER Sample.env_proxy (Some Sample.ambient)
               Sample.fresh "GET" Sample.url Sample.args None))
    = Some (DebugTargetUri "base_client2 target uri: [object Object]")
  /\ head (fst (_request Sample.CORRELATION_HEADER Sample.env_proxy (Some Sample.ambient)
                  Sample.fresh "GET" "https://other.internal/y" Sample.args None))
     = Some (DebugTargetUri "base_client2 target uri: [object Object]")
  /\ head (fst (_request Sample.CORRELATION_HEADER {| FORWARD_PROXY_URL := None |}
                  (Some Sample.ambient) Sample.fresh "GET" Sample.url Sample.args None))
     = Some (DebugTargetUri "base_client2 target uri: https://svc.internal:8443/x").
Proof. split; [reflexivity | split; reflexivity]. Qed.

End ClientFacts.

(* ===================================================================== *)
(** * Properties of the service-resolving middleware *)
(* ===================================================================== *)

Module MiddlewareFacts.
Import Js ResolveService.

(** A service is an object, hence truthy: the test [if (cachedService)]
    succeeds exactly when [get] returned a value. *)
Lemma service_truthy (s : Service) : truthy (service_value s) = true.
Proof. reflexivity. Qed.

(** ** The cache store *)

Lemma live_before {V} (now : Z) (e : Cache.Entry V) :
  now < Cache.expire e -> Cache.live now e = true.
Proof. intros H. unfold Cache.live. apply Z.leb_le. lia. Qed.

Lemma dead_after {V} (now : Z) (e : Cache.Entry V) :
  Cache.expire e < now -> Cache.live now e = false.
Proof. intros H. unfold Cache.live. apply Z.leb_gt. lia. Qed.

Lemma get_live {V} (key : JsVal) (now : Z) (c : Cache.Store V) (e : Cache.Entry V) :
  c !! key = Some e -> Cache.live now e = true ->
  Cache.get key now c = Some (Cache.value e).
Proof. intros He Hnow. unfold Cache.get. by rewrite He, Hnow. Qed.

(** The expiry contract: an entry put with time-to-live [time] is found
    before that much time has passed, and not found after. *)
Lemma get_put_before {V} (key : JsVal) (v : V) (time now t : Z) (c : Cache.Store V) :
  t < now + time -> Cache.get key t (Cache.put key v time now c) = Some v.
Proof.
  intros Ht. unfold Cache.put.
  rewrite (get_live key t _ {| Cache.value := v; Cache.expire := now + time |});
    [reflexivity | apply lookup_insert_eq | by apply live_before].
Qed.

Lemma get_put_after {V} (key : JsVal) (v : V) (time now t : Z) (c : Cache.Store V) :
  now + time < t -> Cache.get key t (Cache.put key v time now c) = None.
Proof.
  intros Ht. unfold Cache.get, Cache.put. rewrite lookup_insert_eq.
  by rewrite dead_after.
Qed.

(** ** The pieces of the middleware *)

Lemma unauthorised_falsy (req : Req) :
  truthy (chargeId req) = false -> truthy (chargeData req) = false ->
  unauthorised req = true.
Proof. intros H1 H2. unfold unauthorised. by rewrite H1, H2. Qed.


Section Runs.

Variable CORRELATION_HEADER : string.
Variable env_SERVICE_CACHE_MAX_AGE : option Z.

Local Abbreviation TTL := (SERVICE_CACHE_MAX_AGE env_SERVICE_CACHE_MAX_AGE).
Local Abbreviation sync := (middleware_sync CORRELATION_HEADER).
Local Abbreviation run := (middleware CORRELATION_HEADER env_SERVICE_CACHE_MAX_AGE).
Local Abbreviation step := (act CORRELATION_HEADER env_SERVICE_CACHE_MAX_AGE).
Local Abbreviation steps := (replay CORRELATION_HEADER env_SERVICE_CACHE_MAX_AGE).

Lemma sync_hit now req res c v :
  unauthorised req = false ->
  Cache.get (gatewayAccountId req) now c = Some v ->
  sync now req res c
    = Finished {| res_after := {| locals_service := Some v |};
                  cache_after := c;
                  trace := [CacheGet (gatewayAccountId req); Next] |}.
Proof. intros Hauth Hget. unfold middleware_sync. by rewrite Hauth, Hget. Qed.

Lemma sync_miss now req res c :
  unauthorised req = false ->
  Cache.get (gatewayAccountId req) now c = None ->
  sync now req res c
    = Pending (gatewayAccountId req)
        {| res_after := res; cache_after := c;
           trace := [CacheGet (gatewayAccountId req);
                     FindServiceBy (headers req !! CORRELATION_HEADER)
                       (gatewayAccountId req)] |}.
Proof. intros Hauth Hget. unfold middleware_sync. by rewrite Hauth, Hget. Qed.

(** The synchronous part never writes to the cache. *)
Lemma sync_keeps_cache now req res c :
  step (Arrives now req res) c = c.
Proof.
  unfold act, middleware_sync.
  destruct (unauthorised req); [reflexivity |].
  by destruct (Cache.get (gatewayAccountId req) now c).
Qed.

(** ** Entries stay live *)

Lemma step_keeps_live k deadline a c :
  deadline <= instant a + TTL ->
  live_until k deadline c -> live_until k deadline (step a c).
Proof.
  intros Hlate (e & He & Hdl).
  destruct a as [now req res | now req k' [service |] res].
  - rewrite sync_keeps_cache. by exists e.
  - simpl in *. unfold Cache.put.
    destruct (decide (k' = k)) as [-> | Hne].
    + eexists. split; [apply lookup_insert_eq | simpl; lia].
    + exists e. split; [by rewrite lookup_insert_ne | assumption].
  - simpl. unfold on_rejected. exists e. by destruct (serviceName req).
Qed.

Lemma steps_keep_live k deadline acts c :
  Forall (fun a => deadline <= instant a + TTL) acts ->
  live_until k deadline c -> live_until k deadline (steps acts c).
Proof.
  intros Hacts. revert c.
  induction Hacts as [| a acts Ha _ IH]; intros c Hc; [exact Hc |].
  simpl. apply IH. by apply step_keeps_live.
Qed.



(** A request whose key has a live entry is served from the cache. *)
Lemma run_hit now req res c later s e :
  unauthorised req = false ->
  c !! gatewayAccountId req = Some e ->
  Cache.live now e = true ->
  run now req res c later s
    = {| res_after := {| locals_service := Some (Cache.value e) |};
         cache_after := c;
         trace := [CacheGet (gatewayAccountId req); Next] |}.
Proof.
  intros Hauth He Hnow. unfold middleware.
  by rewrite (sync_hit now req res c (Cache.value e) Hauth (get_live _ _ _ _ He Hnow)).
Qed.

(** A miss followed by a fetch that succeeds. *)
Lemma run_miss_fulfilled now req res c later v :
  unauthorised req = false ->
  Cache.get (gatewayAccountId req) now c = None ->
  run now req res c later (Fulfilled v)
    = {| res_after := {| locals_service := Some v |};
         cache_after := Cache.put (gatewayAccountId req) v TTL later c;
         trace := [CacheGet (gatewayAccountId req);
                   FindServiceBy (headers req !! CORRELATION_HEADER) (gatewayAccountId req);
                   CachePut (gatewayAccountId req) v TTL;
                   Next] |}.
Proof.
  intros Hauth Hmiss. unfold middleware. by rewrite (sync_miss now req res c Hauth Hmiss).
Qed.

(** A miss followed by a fetch that fails, by whether the log message can
    be built. *)
Lemma run_miss_rejected now req res c later :
  unauthorised req = false ->
  Cache.get (gatewayAccountId req) now c = None ->
  run now req res c later Rejected
    = {| res_after := res;
         cache_after := c;
         trace := [CacheGet (gatewayAccountId req);
                   FindServiceBy (headers req !! CORRELATION_HEADER) (gatewayAccountId req)]
                  ++ match serviceName req with
                     | Some name =>
                         [LoggerError ("Failed to retrieve service information for service: "
                                         ++ to_string name);
                          Next]
                     | None => [Throws "TypeError"]
                     end |}.
Proof.
  intros Hauth Hmiss. unfold middleware.
  rewrite (sync_miss now req res c Hauth Hmiss). simpl. unfold on_rejected.
  by destruct (serviceName req).
Qed.

End Runs.

(** ** The state machine of a request *)

(** C1.  A request with neither a charge identifier nor charge data (both
    absent, or otherwise falsy) is answered through the response router with
    the status UNAUTHORISED and nothing else happens: the cache is not read,
    [findServiceBy] is not called, and the next stage is not invoked. *)
Theorem unauthorised_request_stops_at_response_router
    (CORRELATION_HEADER : string) (env_SERVICE_CACHE_MAX_AGE : option Z)
    (now later : Z) (req : Req) (res : Res)
    (serviceCache : Cache.Store Service) (s : Settlement) :
  truthy (chargeId req) = false ->
  truthy (chargeData req) = false ->
  let r := middleware CORRELATION_HEADER env_SERVICE_CACHE_MAX_AGE
             now req res serviceCache later s in
  trace r = [Response "UNAUTHORISED"]
  /\ (forall key, ~ In (CacheGet key) (trace r))
  /\ (forall correlationId key, ~ In (FindServiceBy correlationId key) (trace r))
  /\ ~ In Next (trace r)
  /\ res_after r = res
  /\ cache_after r = serviceCache.
Proof.
  intros Hid Hdata r. subst r. unfold middleware, middleware_sync.
  rewrite (unauthorised_falsy req Hid Hdata). simpl.
  repeat split; try (intros; intros [? | []]; discriminate).
Qed.

(** C2.  A request that passes the authorisation check and whose account
    identifier has a live cache entry gets exactly the cached value as
    [res.locals.service] and goes on to the next stage; [findServiceBy] is
    not called and the cache is left as it was. *)
Theorem cache_hit_attaches_cached_service
    (CORRELATION_HEADER : string) (env_SERVICE_CACHE_MAX_AGE : option Z)
    (now later : Z) (req : Req) (res : Res)
    (serviceCache : Cache.Store Service) (s : Settlement)
    (entry : Cache.Entry Service) :
  unauthorised req = false ->
  serviceCache !! gatewayAccountId req = Some entry ->
  Cache.live now entry = true ->
  let r := middleware CORRELATION_HEADER env_SERVICE_CACHE_MAX_AGE
             now req res serviceCache later s in
  trace r = [CacheGet (gatewayAccountId req); Next]
  /\ (forall correlationId key, ~ In (FindServiceBy correlationId key) (trace r))
  /\ locals_service (res_after r) = Some (Cache.value entry)
  /\ cache_after r = serviceCache.
Proof.
  intros Hauth Hentry Hlive r. subst r.
  rewrite (run_hit _ _ _ _ _ _ _ _ _ Hauth Hentry Hlive). simpl.
  repeat split. intros c k [? | [? | []]]; discriminate.
Qed.

(** C4 fails on a request that carries a charge identifier and no charge
    data: the cache is missed, the fetch is rejected, and building the log
    message throws before the next stage is invoked. *)
Theorem rejected_fetch_without_charge_data_never_continues
    (CORRELATION_HEADER : string) (env_SERVICE_CACHE_MAX_AGE : option Z) :
  let req := {| chargeId := JStr "ch_1"; chargeData := JUndefined; headers := ∅ |} in
  let r := middleware CORRELATION_HEADER env_SERVICE_CACHE_MAX_AGE
             0 req {| locals_service := None |} ∅ 1 Rejected in
  unauthorised req = false
  /\ trace r = [CacheGet JUndefined; FindServiceBy None JUndefined; Throws "TypeError"]
  /\ existsb (fun e => match e with Next => true | _ => false end) (trace r) = false
  /\ locals_service (res_after r) = None.
Proof.
  cbv zeta. unfold middleware, middleware_sync. simpl.
  rewrite lookup_empty. repeat split.
Qed.

(** Where C4 holds.  When the charge data names its gateway account, a
    rejected fetch is logged with the service name and the next stage is
    invoked; the response object and the cache are left as they were. *)
Theorem rejected_fetch_continues_when_account_is_present
    (CORRELATION_HEADER : string) (env_SERVICE_CACHE_MAX_AGE : option Z)
    (now later : Z) (req : Req) (res : Res)
    (serviceCache : Cache.Store Service) (name : JsVal) :
  unauthorised req = false ->
  Cache.get (gatewayAccountId req) now serviceCache = None ->
  serviceName req = Some name ->
  let r := middleware CORRELATION_HEADER env_SERVICE_CACHE_MAX_AGE
             now req res serviceCache later Rejected in
  trace r
    = [CacheGet (gatewayAccountId req);
       FindServiceBy (headers req !! CORRELATION_HEADER) (gatewayAccountId req);
       LoggerError ("Failed to retrieve service information for service: "
                      ++ to_string name);
       Next]
  /\ res_after r = res
  /\ cache_after r = serviceCache.
Proof.
  intros Hauth Hmiss Hname r. subst r.
  rewrite (run_miss_rejected _ _ _ _ _ _ _ Hauth Hmiss), Hname.
  repeat split.
Qed.


(** ** The properties on the sample requests *)

Lemma unauthorised_request_witness :
  truthy (chargeId Sample.anonymous) = false
  /\ truthy (chargeData Sample.anonymous) = false
  /\ trace (middleware Sample.CORRELATION_HEADER None 0 Sample.anonymous Sample.res ∅
               1 (Fulfilled Sample.service))
      = [Response "UNAUTHORISED"].
Proof.
  split; [reflexivity | split; [reflexivity |]].
  exact (proj1 (unauthorised_request_stops_at_response_router
                  Sample.CORRELATION_HEADER None 0 1 Sample.anonymous Sample.res ∅
                  (Fulfilled Sample.service) eq_refl eq_refl)).
Defined.

Lemma cache_hit_witness :
  let entry := {| Cache.value := Sample.service; Cache.expire := 900000 |} in
  let serviceCache : Cache.Store Service := {[ JNum 7 := entry ]} in
  unauthorised Sample.shopper = false
  /\ serviceCache !! gatewayAccountId Sample.shopper = Some entry
  /\ Cache.live 250 entry = true
  /\ trace (middleware Sample.CORRELATION_HEADER None 250 Sample.shopper Sample.res
               serviceCache 260 Rejected)
      = [CacheGet (JNum 7); Next]
  /\ locals_service
        (res_after (middleware Sample.CORRELATION_HEADER None 250 Sample.shopper Sample.res
                      serviceCache 260 Rejected))
      = Some Sample.service.
Proof.
  intros entry serviceCache.
  assert (Hlive : Cache.live 250 entry = true) by reflexivity.
  destruct (cache_hit_attaches_cached_service
              Sample.CORRELATION_HEADER None 250 260 Sample.shopper Sample.res
              serviceCache Rejected entry eq_refl eq_refl Hlive)
    as (Htrace & _ & Hservice & _).
  split; [reflexivity | split; [reflexivity | split; [exact Hlive |]]].
  split; [exact Htrace | exact Hservice].
Defined.

Lemma rejected_fetch_continues_witness :
  unauthorised Sample.shopper = false
  /\ serviceName Sample.shopper = Some (JStr "shop")
  /\ trace (middleware Sample.CORRELATION_HEADER None 0 Sample.shopper Sample.res ∅
               5 Rejected)
      = [CacheGet (JNum 7); FindServiceBy (Some "abc-123") (JNum 7);
         LoggerError "Failed to retrieve service information for service: shop";
         Next]
  /\ res_after (middleware Sample.CORRELATION_HEADER None 0 Sample.shopper Sample.res ∅
                   5 Rejected)
      = Sample.res.
Proof.
  assert (Hmiss : Cache.get (gatewayAccountId Sample.shopper) 0
                    (∅ : Cache.Store Service) = None) by reflexivity.
  destruct (rejected_fetch_continues_when_account_is_present
              Sample.CORRELATION_HEADER None 0 5 Sample.shopper Sample.res ∅ (JStr "shop")
              eq_refl Hmiss eq_refl)
    as (Htrace & Hres & _).
  split; [reflexivity | split; [reflexivity | split; [exact Htrace | exact Hres]]].
Defined.


End MiddlewareFacts.

(* ===================================================================== *)
(** * Further properties of the service-resolving middleware *)
(* ===================================================================== *)

Module MiddlewareMore.
Import Js ResolveService Outcome MiddlewareFacts.

(** ** Reading the account identifier *)

(** An account identifier other than [undefined] can only be read off charge
    data that is an object whose [gateway_account] is neither [undefined]
    nor [null]. *)
Lemma account_id_needs_account (req : Req) :
  gatewayAccountId req <> JUndefined ->
  (exists props, chargeData req = JObj props)
  /\ exists name, serviceName req = Some name.
Proof.
  unfold gatewayAccountId, serviceName. simpl.
  destruct (chargeData req) as [| | b | n | s | props]; simpl; try congruence.
  intros Hid. split; [by exists props |].
  destruct (default JUndefined (own_property props "gateway_account"))
    as [| | b | n | s | account]; simpl in *; try congruence; by eexists.
Qed.

(** ** Time and the cache *)

(** A miss stays a miss as time passes. *)
Lemma miss_stays_miss {V} (key : JsVal) (now t : Z) (c : Cache.Store V) :
  Cache.get key now c = None -> now <= t -> Cache.get key t c = None.
Proof.
  unfold Cache.get, Cache.live. intros Hmiss Ht.
  destruct (c !! key) as [e |]; [| reflexivity].
  destruct (Z.leb_spec now (Cache.expire e)); [discriminate |].
  destruct (Z.leb_spec t (Cache.expire e)); [lia | reflexivity].
Qed.

(** ** The five runs of the middleware *)

Section Shapes.

Variable CORRELATION_HEADER : string.
Variable env_SERVICE_CACHE_MAX_AGE : option Z.

Local Abbreviation ttl := (SERVICE_CACHE_MAX_AGE env_SERVICE_CACHE_MAX_AGE).
Local Abbreviation run := (middleware CORRELATION_HEADER env_SERVICE_CACHE_MAX_AGE).

(** The ways a run can go, with what it leaves behind. *)
Inductive Shape (now later : Z) (req : Req) (res : Res)
    (c : Cache.Store Service) : Settlement -> Run -> Prop :=
| Refused s :
    unauthorised req = true ->
    Shape now later req res c s
      {| res_after := res; cache_after := c; trace := [Response "UNAUTHORISED"] |}
| Hit s v :
    unauthorised req = false ->
    Cache.get (gatewayAccountId req) now c = Some v ->
    Shape now later req res c s
      {| res_after := {| locals_service := Some v |}; cache_after := c;
         trace := [CacheGet (gatewayAccountId req); Next] |}
| Fetched v :
    unauthorised req = false ->
    Cache.get (gatewayAccountId req) now c = None ->
    Shape now later req res c (Fulfilled v)
      {| res_after := {| locals_service := Some v |};
         cache_after := Cache.put (gatewayAccountId req) v ttl later c;
         trace := [CacheGet (gatewayAccountId req);
                   FindServiceBy (headers req !! CORRELATION_HEADER) (gatewayAccountId req);
                   CachePut (gatewayAccountId req) v ttl;
                   Next] |}
| Failed name :
    unauthorised req = false ->
    Cache.get (gatewayAccountId req) now c = None ->
    serviceName req = Some name ->
    Shape now later req res c Rejected
      {| res_after := res; cache_after := c;
         trace := [CacheGet (gatewayAccountId req);
                   FindServiceBy (headers req !! CORRELATION_HEADER) (gatewayAccountId req);
                   LoggerError ("Failed to retrieve service information for service: "
                                  ++ to_string name);
                   Next] |}
| Broken :
    unauthorised req = false ->
    Cache.get (gatewayAccountId req) now c = None ->
    serviceName req = None ->
    Shape now later req res c Rejected
      {| res_after := res; cache_after := c;
         trace := [CacheGet (gatewayAccountId req);
                   FindServiceBy (headers req !! CORRELATION_HEADER) (gatewayAccountId req);
                   Throws "TypeError"] |}.

Lemma run_shape now later req res c s :
  Shape now later req res c s (run now req res c later s).
Proof.
  destruct (unauthorised req) eqn:Hauth.
  - unfold middleware, middleware_sync. rewrite Hauth. by constructor.
  - destruct (Cache.get (gatewayAccountId req) now c) as [v |] eqn:Hget.
    + unfold middleware. rewrite (sync_hit _ _ _ _ _ _ Hauth Hget). by constructor.
    + destruct s as [v |].
      * rewrite run_miss_fulfilled by assumption. by constructor.
      * rewrite run_miss_rejected by assumption.
        destruct (serviceName req) as [name |] eqn:Hname; simpl; by constructor.
Qed.

End Shapes.

(** ** What every run does *)

(** The response router is called exactly for the requests that carry neither
    a truthy charge identifier nor truthy charge data, and only ever with the
    status UNAUTHORISED. *)
Theorem response_router_exactly_when_unauthorised
    (CORRELATION_HEADER : string) (env_SERVICE_CACHE_MAX_AGE : option Z)
    (now later : Z) (req : Req) (res : Res)
    (serviceCache : Cache.Store Service) (s : Settlement) :
  let r := middleware CORRELATION_HEADER env_SERVICE_CACHE_MAX_AGE
             now req res serviceCache later s in
  (In (Response "UNAUTHORISED") (trace r)
   <-> truthy (chargeId req) = false /\ truthy (chargeData req) = false)
  /\ (forall status, In (Response status) (trace r) -> status = "UNAUTHORISED")
  /\ (count is_response (trace r) = 1%nat
      <-> truthy (chargeId req) = false /\ truthy (chargeData req) = false).
Proof.
  intros r.
  assert (Hguard : unauthorised req = true
                   <-> truthy (chargeId req) = false /\ truthy (chargeData req) = false).
  { unfold unauthorised.
    destruct (truthy (chargeId req)), (truthy (chargeData req)); simpl; intuition congruence. }
  pose proof (run_shape CORRELATION_HEADER env_SERVICE_CACHE_MAX_AGE
                now later req res serviceCache s) as Hshape.
  fold r in Hshape. rewrite <- Hguard.
  destruct Hshape; simpl; unfold count; simpl;
    (split; [| split]); try (intuition congruence);
    intros status Hin; simpl in Hin; intuition congruence.
Qed.

(** A run changes nothing in the cache but the entry of its own account
    identifier, and that only by the put that follows a fetch that succeeded:
    every put in a trace is under the request's identifier, with the
    configured time-to-live and the fetched service, and a run without a put
    leaves the cache as it found it. *)
Theorem run_writes_only_its_own_entry
    (CORRELATION_HEADER : string) (env_SERVICE_CACHE_MAX_AGE : option Z)
    (now later : Z) (req : Req) (res : Res)
    (serviceCache : Cache.Store Service) (s : Settlement) :
  let r := middleware CORRELATION_HEADER env_SERVICE_CACHE_MAX_AGE
             now req res serviceCache later s in
  (forall key, key <> gatewayAccountId req ->
     cache_after r !! key = serviceCache !! key)
  /\ (forall key v time, In (CachePut key v time) (trace r) ->
        key = gatewayAccountId req
        /\ time = SERVICE_CACHE_MAX_AGE env_SERVICE_CACHE_MAX_AGE
        /\ s = Fulfilled v
        /\ Cache.get (gatewayAccountId req) now serviceCache = None)
  /\ (count is_put (trace r) = 0%nat -> cache_after r = serviceCache).
Proof.
  intros r.
  pose proof (run_shape CORRELATION_HEADER env_SERVICE_CACHE_MAX_AGE
                now later req res serviceCache s) as Hshape.
  fold r in Hshape.
  destruct Hshape; unfold count; simpl; (split; [| split]);
    try reflexivity; try discriminate;
    try (intros key v' time Hin; simpl in Hin; intuition congruence).
  intros key Hkey. unfold Cache.put. by rewrite lookup_insert_ne.
Qed.

(** ** Failures and expiry *)

(** A fetch that fails is not remembered: the cache and the response are
    left as they were, and the next request for the same account identifier
    fetches again. *)
Theorem rejected_fetch_is_not_cached
    (CORRELATION_HEADER : string) (env_SERVICE_CACHE_MAX_AGE : option Z)
    (now later t later' : Z) (req req' : Req) (res res' : Res)
    (serviceCache : Cache.Store Service) (s' : Settlement) :
  unauthorised req = false ->
  Cache.get (gatewayAccountId req) now serviceCache = None ->
  unauthorised req' = false ->
  gatewayAccountId req' = gatewayAccountId req ->
  now <= t ->
  let first := middleware CORRELATION_HEADER env_SERVICE_CACHE_MAX_AGE
                 now req res serviceCache later Rejected in
  let second := middleware CORRELATION_HEADER env_SERVICE_CACHE_MAX_AGE
                  t req' res' (cache_after first) later' s' in
  cache_after first = serviceCache
  /\ res_after first = res
  /\ count is_fetch (trace first) = 1%nat
  /\ count is_fetch (trace second) = 1%nat
  /\ In (FindServiceBy (headers req' !! CORRELATION_HEADER) (gatewayAccountId req))
        (trace second).
Proof.
  intros Hauth Hmiss Hauth' Hkey Ht first second.
  assert (Hfirst : cache_after first = serviceCache /\ res_after first = res
                   /\ count is_fetch (trace first) = 1%nat).
  { subst first. rewrite run_miss_rejected by assumption.
    unfold count. simpl. by destruct (serviceName req). }
  destruct Hfirst as (Hcache & Hres & Hcount).
  assert (Hmiss' : Cache.get (gatewayAccountId req') t serviceCache = None).
  { rewrite Hkey. by apply (miss_stays_miss _ now). }
  assert (Hsecond : count is_fetch (trace second) = 1%nat
                    /\ In (FindServiceBy (headers req' !! CORRELATION_HEADER)
                             (gatewayAccountId req')) (trace second)).
  { subst second. rewrite Hcache. destruct s' as [v |].
    - rewrite run_miss_fulfilled by assumption. unfold count. simpl. auto.
    - rewrite run_miss_rejected by assumption. unfold count. simpl.
      destruct (serviceName req'); simpl; auto. }
  rewrite <- Hkey. tauto.
Qed.


(** A request that carries an account identifier always passes the
    authorisation check, and a failed fetch never keeps it from the next
    stage: the account whose identifier was read also gives the log line its
    service name. *)
Theorem rejected_fetch_continues_with_account_id
    (CORRELATION_HEADER : string) (env_SERVICE_CACHE_MAX_AGE : option Z)
    (now later : Z) (req : Req) (res : Res)
    (serviceCache : Cache.Store Service) :
  gatewayAccountId req <> JUndefined ->
  Cache.get (gatewayAccountId req) now serviceCache = None ->
  let r := middleware CORRELATION_HEADER env_SERVICE_CACHE_MAX_AGE
             now req res serviceCache later Rejected in
  unauthorised req = false
  /\ final (trace r) = Some Next
  /\ count is_throw (trace r) = 0%nat
  /\ res_after r = res
  /\ cache_after r = serviceCache.
Proof.
  intros Hid Hmiss r.
  destruct (account_id_needs_account req Hid) as ((props & Hdata) & name & Hname).
  assert (Hauth : unauthorised req = false).
  { unfold unauthorised. rewrite Hdata. simpl. apply andb_false_r. }
  split; [exact Hauth |].
  subst r. rewrite run_miss_rejected by assumption. rewrite Hname.
  repeat split.
Qed.


(** ** The properties on the sample requests *)

Lemma rejected_fetch_not_cached_witness :
  let first :=
    middleware Sample.CORRELATION_HEADER None 0 Sample.shopper Sample.res ∅ 5 Rejected in
  let second :=
    middleware Sample.CORRELATION_HEADER None 10 Sample.shopper Sample.res
      (cache_after first) 15 (Fulfilled Sample.service) in
  unauthorised Sample.shopper = false
  /\ Cache.get (gatewayAccountId Sample.shopper) 0 (∅ : Cache.Store Service) = None
  /\ 0 <= 10
  /\ cache_after first = ∅
  /\ In (FindServiceBy (Some "abc-123") (JNum 7)) (trace second).
Proof.
  intros first second.
  assert (Hmiss : Cache.get (gatewayAccountId Sample.shopper) 0
                    (∅ : Cache.Store Service) = None) by reflexivity.
  assert (Ht : 0 <= 10) by lia.
  destruct (rejected_fetch_is_not_cached
              Sample.CORRELATION_HEADER None 0 5 10 15 Sample.shopper Sample.shopper
              Sample.res Sample.res ∅ (Fulfilled Sample.service)
              eq_refl Hmiss eq_refl eq_refl Ht)
    as (Hcache & _ & _ & _ & Hfetch).
  split; [reflexivity | split; [exact Hmiss | split; [exact Ht |]]].
  split; [exact Hcache | exact Hfetch].
Defined.


Lemma rejected_fetch_with_account_id_witness :
  gatewayAccountId Sample.shopper <> JUndefined
  /\ Cache.get (gatewayAccountId Sample.shopper) 0 (∅ : Cache.Store Service) = None
  /\ final (trace (middleware Sample.CORRELATION_HEADER None 0 Sample.shopper Sample.res ∅
                      5 Rejected))
      = Some Next.
Proof.
  assert (Hid : gatewayAccountId Sample.shopper <> JUndefined) by discriminate.
  assert (Hmiss : Cache.get (gatewayAccountId Sample.shopper) 0
                    (∅ : Cache.Store Service) = None) by reflexivity.
  destruct (rejected_fetch_continues_with_account_id
              Sample.CORRELATION_HEADER None 0 5 Sample.shopper Sample.res ∅ Hid Hmiss)
    as (_ & Hnext & _).
  split; [exact Hid | split; [exact Hmiss | exact Hnext]].
Defined.


End MiddlewareMore.

(* ===================================================================== *)
(** * Further properties of the outbound request client *)
(* ===================================================================== *)

Module ClientMore.
Import Js Url BaseClient ClientFacts.

(** ** The headers *)

Lemma urlParse_no_host_no_port (url : string) :
  hostname (urlParse url) = None -> port (urlParse url) = None.
Proof.
  unfold urlParse.
  destruct (split_protocol url) as [proto after].
  destruct (match drop_prefix "//" after with
            | Some r => match proto with Some _ => (true, r) | None => (false, after) end
            | None => (false, after)
            end) as [sl after'].
  destruct (match proto with
            | Some p => negb (mem p hostlessProtocol) && (sl || negb (mem p slashedProtocol))
            | None => false
            end); [| reflexivity].
  destruct (break is_host_ending after') as [authority ?].
  destruct (match split_last 64 authority with
            | Some (a, _) => _
            | None => _
            end) as [au after''].
  destruct (break is_non_host after'') as [hostport rst].
  destruct (split_port hostport) as [name p]. discriminate.
Qed.

(** The computed headers are the two fixed ones, [host] when a URL is given
    and the trace header when a segment is active, and no other; the headers
    returned add the names the caller supplies, and nothing else. *)
Theorem header_names_are_the_computed_and_the_callers
    (CORRELATION_HEADER_NAME : string) (fresh : Segment) (args : Args)
    (segmentData : SegmentData) (url : string) :
  dom (computedHeaders CORRELATION_HEADER_NAME fresh args segmentData url)
    = ({["Content-Type"; CORRELATION_HEADER_NAME]}
       ∪ (if String.eqb url "" then ∅ else {["host"]})
       ∪ (match clsSegment segmentData with
          | Some _ => {["X-Amzn-Trace-Id"]}
          | None => ∅
          end) : gset string)
  /\ dom (getHeaders CORRELATION_HEADER_NAME fresh args segmentData url)
     = dom (computedHeaders CORRELATION_HEADER_NAME fresh args segmentData url)
       ∪ match headers args with
         | Some extra => dom extra
         | None => ∅
         end.
Proof.
  split.
  - unfold computedHeaders, basicHeaders.
    destruct (clsSegment segmentData), (String.eqb url "");
      rewrite !dom_insert_L, dom_empty_L; apply set_eq; intros name;
      rewrite !elem_of_union, !elem_of_singleton, ?elem_of_empty; tauto.
  - unfold getHeaders, merge.
    destruct (headers args) as [extra |].
    + rewrite dom_union_L. apply union_comm_L.
    + by rewrite union_empty_r_L.
Qed.

(** Without a URL no [host] header is computed; for a URL in which no host
    can be found, the [host] header is the text null. *)
Theorem host_header_when_url_has_no_host
    (CORRELATION_HEADER_NAME : string) (fresh : Segment) (args : Args)
    (segmentData : SegmentData) (url : string) :
  CORRELATION_HEADER_NAME <> "host" ->
  hostname (urlParse url) = None ->
  computedHeaders CORRELATION_HEADER_NAME fresh args segmentData url !! "host"
    = if String.eqb url "" then None else Some "null".
Proof.
  intros Hname Hhost.
  rewrite computedHeaders_other by discriminate.
  destruct (String.eqb url "") eqn:Hurl.
  - unfold basicHeaders. rewrite Hurl. by simplify_map_eq.
  - rewrite basicHeaders_host by assumption.
    unfold host_of. by rewrite Hhost, (urlParse_no_host_no_port _ Hhost).
Qed.

(** ** The options of a request *)

(** A payload and a query are passed on exactly when they are truthy: a
    payload that is [undefined], [null], [false], [0] or the empty string
    leaves the request without a body. *)
Theorem body_and_query_sent_only_when_truthy
    (CORRELATION_HEADER_NAME : string) (env : Env) (ambient : option Segment)
    (fresh : Segment) (methodName url : string) (args : Args)
    (subSegment : option Segment) :
  let requestOptions :=
    snd (_request CORRELATION_HEADER_NAME env ambient fresh methodName url args subSegment) in
  (forall v, body requestOptions = Some v <-> payload args = v /\ truthy v = true)
  /\ (forall v, req_qs requestOptions = Some v <-> qs args = v /\ truthy v = true)
  /\ (In (payload args) [JUndefined; JNull; JBool false; JNum 0; JStr ""] ->
      body requestOptions = None)
  /\ (forall props, payload args = JObj props -> body requestOptions = Some (JObj props)).
Proof.
  intros requestOptions. subst requestOptions. unfold _request. simpl.
  assert (Hsent : forall x v : JsVal,
            (if truthy x then Some x else None) = Some v <-> x = v /\ truthy v = true).
  { intros x v. destruct (truthy x) eqn:Ht; split.
    - by intros [= <-].
    - by intros [-> _].
    - discriminate.
    - intros [-> Hv]. congruence. }
  split; [intros v; apply Hsent |].
  split; [intros v; apply Hsent |].
  split.
  - intros Hin. simpl in Hin.
    destruct Hin as [<- | [<- | [<- | [<- | [<- | []]]]]]; reflexivity.
  - intros props ->. reflexivity.
Qed.

(** The verbs differ in the method they pass, and in that only [get] hands
    a sub-segment on: under an active segment [post], [put], [patch] and
    [delete] always name the segment synthesized for the request as the
    parent, [get] the sub-segment of its caller when it is given one. *)
Theorem verbs_pass_method_and_only_get_a_sub_segment
    (CORRELATION_HEADER_NAME : string) (env : Env) (fresh : Segment)
    (url : string) (args : Args) (cls sub : Segment) :
  match headers args with
  | Some extra => extra !! "X-Amzn-Trace-Id"
  | None => None
  end = None ->
  let parent (issued : list LogLine * RequestOptions) :=
    req_headers (snd issued) !! "X-Amzn-Trace-Id" in
  let under (child : Segment) :=
    Some ("Root=" ++ trace_id cls ++ ";Parent=" ++ id child ++ ";Sampled=1") in
  parent (get CORRELATION_HEADER_NAME env (Some cls) fresh url args (Some sub)) = under sub
  /\ parent (get CORRELATION_HEADER_NAME env (Some cls) fresh url args None) = under fresh
  /\ parent (post CORRELATION_HEADER_NAME env (Some cls) fresh url args) = under fresh
  /\ parent (put CORRELATION_HEADER_NAME env (Some cls) fresh url args) = under fresh
  /\ parent (patch CORRELATION_HEADER_NAME env (Some cls) fresh url args) = under fresh
  /\ parent (delete_ CORRELATION_HEADER_NAME env (Some cls) fresh url args) = under fresh
  /\ map (fun issued => method (snd issued))
       [get CORRELATION_HEADER_NAME env (Some cls) fresh url args (Some sub);
        post CORRELATION_HEADER_NAME env (Some cls) fresh url args;
        put CORRELATION_HEADER_NAME env (Some cls) fresh url args;
        patch CORRELATION_HEADER_NAME env (Some cls) fresh url args;
        delete_ CORRELATION_HEADER_NAME env (Some cls) fresh url args]
     = ["GET"; "POST"; "PUT"; "PATCH"; "DELETE"].
Proof.
  intros Hcaller parent under. subst parent under.
  assert (Hheader : forall methodName child,
    req_headers (snd (_request CORRELATION_HEADER_NAME env (Some cls) fresh methodName url
                        args child)) !! "X-Amzn-Trace-Id"
    = Some ("Root=" ++ trace_id cls ++ ";Parent=" ++ id (default fresh child)
              ++ ";Sampled=1")).
  { intros methodName child. unfold _request. simpl.
    unfold getHeaders, merge.
    assert (Hc : computedHeaders CORRELATION_HEADER_NAME fresh args
                   {| clsSegment := Some cls; subSegment := child |} url
                   !! "X-Amzn-Trace-Id"
                 = Some ("Root=" ++ trace_id cls ++ ";Parent=" ++ id (default fresh child)
                           ++ ";Sampled=1")).
    { unfold computedHeaders. simpl. by rewrite lookup_insert_eq. }
    destruct (headers args) as [extra |]; [| exact Hc].
    by rewrite lookup_union_r. }
  unfold get, post, put, patch, delete_.
  repeat split; apply Hheader.
Qed.

(** ** The forward proxy *)

(** The proxy gives the request its host name and port and nothing else:
    scheme, credentials, path and the combined [host] field of the URL
    object are those of the target URL, and the agent is chosen by the
    scheme of the target, not of the proxy. *)
Theorem forward_proxy_replaces_only_hostname_and_port
    (CORRELATION_HEADER_NAME : string) (env : Env) (ambient : option Segment)
    (fresh : Segment) (methodName url : string) (args : Args)
    (subSegment : option Segment) (proxy : string) :
  FORWARD_PROXY_URL env = Some proxy ->
  proxy <> "" ->
  let requestOptions :=
    snd (_request CORRELATION_HEADER_NAME env ambient fresh methodName url args subSegment) in
  (exists u,
     uri requestOptions = UriObject u
     /\ hostname u = hostname (urlParse proxy)
     /\ port u = port (urlParse proxy)
     /\ protocol u = protocol (urlParse url)
     /\ slashes u = slashes (urlParse url)
     /\ auth u = auth (urlParse url)
     /\ host u = host (urlParse url)
     /\ rest u = rest (urlParse url))
  /\ agent requestOptions
     = agent (snd (_request CORRELATION_HEADER_NAME {| FORWARD_PROXY_URL := None |}
                     ambient fresh methodName url args subSegment))
  /\ req_headers requestOptions
     = req_headers (snd (_request CORRELATION_HEADER_NAME {| FORWARD_PROXY_URL := None |}
                           ambient fresh methodName url args subSegment))
  /\ body requestOptions
     = body (snd (_request CORRELATION_HEADER_NAME {| FORWARD_PROXY_URL := None |}
                    ambient fresh methodName url args subSegment)).
Proof.
  intros Henv Hproxy requestOptions. subst requestOptions.
  unfold _request. rewrite Henv, (truthy_env_set _ Hproxy). simpl.
  split; [| repeat split].
  eexists. split; [reflexivity |]. repeat split.
Qed.

(** ** The agents *)

(** Keep-alive, the socket limit and the custom certificate are options of
    the secure agent alone: a request to an [http:] URL goes through the
    global agent, which is not constructed from them.  The secure agent
    carries the custom certificate unless [DISABLE_INTERNAL_HTTPS] is the
    text true, in which case a warning is logged instead; its socket limit
    is the text of [MAX_SOCKETS], or the number 100 when that is unset or
    empty. *)
Theorem agent_options_apply_to_secure_agent_only
    (Cert : Type) (getCertOptions : Cert) (agents_env : Agents.Env)
    (CORRELATION_HEADER_NAME : string) (env : Env) (ambient : option Segment)
    (fresh : Segment) (methodName url : string) (args : Args)
    (subSegment : option Segment) :
  let used :=
    agent (snd (_request CORRELATION_HEADER_NAME env ambient fresh methodName url args
                  subSegment)) in
  let options := fst (Agents.agentOptions Cert getCertOptions agents_env) in
  let warnings := snd (Agents.agentOptions Cert getCertOptions agents_env) in
  (Agents.constructed_with Cert getCertOptions agents_env used
   = if bool_decide (protocol (urlParse url) = Some "http:") then None else Some options)
  /\ Agents.keepAlive Cert options = true
  /\ (Agents.maxSockets Cert options = JNum 100
      <-> Agents.MAX_SOCKETS agents_env = None \/ Agents.MAX_SOCKETS agents_env = Some "")
  /\ (forall n, Agents.MAX_SOCKETS agents_env = Some n -> n <> "" ->
      Agents.maxSockets Cert options = JStr n)
  /\ (Agents.ca Cert options = None
      <-> Agents.DISABLE_INTERNAL_HTTPS agents_env = Some "true")
  /\ (Agents.ca Cert options = Some getCertOptions
      <-> Agents.DISABLE_INTERNAL_HTTPS agents_env <> Some "true")
  /\ (warnings = ["DISABLE_INTERNAL_HTTPS is set."]
      <-> Agents.DISABLE_INTERNAL_HTTPS agents_env = Some "true")
  /\ (warnings = [] <-> Agents.DISABLE_INTERNAL_HTTPS agents_env <> Some "true").
Proof.
  intros used options warnings. subst used options warnings.
  split.
  { rewrite agent_follows_scheme. by case_bool_decide. }
  unfold Agents.agentOptions, Agents.max_sockets.
  destruct agents_env as [[n |] [flag |]]; simpl;
    try destruct (String.eqb_spec n ""); try destruct (String.eqb_spec flag "true");
    subst; simpl; repeat split; try (intuition congruence);
    try (intros m [= <-]; congruence).
Qed.

(** ** The properties on the sample call *)

Lemma host_header_without_host_witness :
  Sample.CORRELATION_HEADER <> "host"
  /\ hostname (urlParse "svc.internal/x") = None
  /\ computedHeaders Sample.CORRELATION_HEADER Sample.fresh Sample.args Sample.traced
        "svc.internal/x" !! "host" = Some "null".
Proof.
  assert (Hname : Sample.CORRELATION_HEADER <> "host") by discriminate.
  split; [exact Hname | split; [reflexivity |]].
  exact (host_header_when_url_has_no_host
           Sample.CORRELATION_HEADER Sample.fresh Sample.args Sample.traced
           "svc.internal/x" Hname eq_refl).
Defined.

Lemma verbs_witness :
  let sub := {| trace_id := "1-5f84c7a1-aa11"; id := "b0c1d2e3f4a5b6c7" |} in
  req_headers (snd (get Sample.CORRELATION_HEADER Sample.env_proxy (Some Sample.ambient)
                      Sample.fresh Sample.url Sample.args (Some sub)))
    !! "X-Amzn-Trace-Id"
  = Some "Root=1-5f84c7a1-aa11;Parent=b0c1d2e3f4a5b6c7;Sampled=1"
  /\ req_headers (snd (post Sample.CORRELATION_HEADER Sample.env_proxy (Some Sample.ambient)
                         Sample.fresh Sample.url Sample.args))
       !! "X-Amzn-Trace-Id"
     = Some "Root=1-5f84c7a1-aa11;Parent=70de5b6f19ff9a0a;Sampled=1".
Proof.
  intros sub.
  destruct (verbs_pass_method_and_only_get_a_sub_segment
              Sample.CORRELATION_HEADER Sample.env_proxy Sample.fresh Sample.url
              Sample.args Sample.ambient sub eq_refl)
    as (Hget & _ & Hpost & _).
  split; [exact Hget | exact Hpost].
Defined.

Lemma forward_proxy_fields_witness :
  FORWARD_PROXY_URL Sample.env_proxy = Some Sample.proxy
  /\ Sample.proxy <> ""
  /\ uri (snd (_request Sample.CORRELATION_HEADER Sample.env_proxy None Sample.fresh
                 "GET" Sample.url Sample.args None))
     = UriObject {| protocol := Some "https:"; slashes := true; auth := None;
                    host := Some "svc.internal:8443"; port := Some "3128";
                    hostname := Some "proxy.local"; rest := "/x" |}
  /\ agent (snd (_request Sample.CORRELATION_HEADER Sample.env_proxy None Sample.fresh
                   "GET" Sample.url Sample.args None))
     = httpsAgent.
Proof.
  assert (Hp : Sample.proxy <> "") by discriminate.
  destruct (forward_proxy_replaces_only_hostname_and_port
              Sample.CORRELATION_HEADER Sample.env_proxy None Sample.fresh
              "GET" Sample.url Sample.args None Sample.proxy eq_refl Hp)
    as ((u & Huri & _) & Hagent & _).
  split; [reflexivity | split; [exact Hp | split; [reflexivity | exact Hagent]]].
Defined.

End ClientMore.

(* ===================================================================== *)
(** * Properties of the server set-up script *)
(* ===================================================================== *)

Module ServerFacts.
Import Js Server.

(** The locals middleware always hands the request on, exactly once and as
    the last thing it does.  It sets [assetPath] to [/public/] and
    [analyticsTrackingId] to a string, the configured identifier or the
    empty string, and touches no other local; the warning is logged exactly
    when the identifier is not configured (an empty one counts as
    configured); running it again changes nothing. *)
Theorem locals_middleware_sets_two_locals_and_continues
    (env : Env) (locals : Locals) :
  let locals' := fst (locals_middleware env locals) in
  let effects := snd (locals_middleware env locals) in
  locals' !! "assetPath" = Some (JStr "/public/")
  /\ locals' !! "analyticsTrackingId"
     = Some (JStr (match ANALYTICS_TRACKING_ID env with Some t => t | None => "" end))
  /\ (forall name, name <> "assetPath" -> name <> "analyticsTrackingId" ->
      locals' !! name = locals !! name)
  /\ (exists warnings, effects = (warnings ++ [Next])%list /\ ~ In Next warnings)
  /\ ((exists message, In (LoggerWarn message) effects)
      <-> ANALYTICS_TRACKING_ID env = None)
  /\ fst (locals_middleware env locals') = locals'.
Proof.
  intros locals' effects. subst locals' effects. unfold locals_middleware.
  destruct (ANALYTICS_TRACKING_ID env) as [t |]; simpl.
  - split; [by simplify_map_eq |]. split; [by simplify_map_eq |].
    split; [intros name H1 H2; by simplify_map_eq |].
    split; [exists []; split; [reflexivity | intros []] |].
    split; [split; [intros [m [H | []]]; discriminate | discriminate] |].
    apply map_eq. intros name.
    destruct (decide (name = "analyticsTrackingId")) as [-> | ?];
      [by simplify_map_eq |].
    destruct (decide (name = "assetPath")) as [-> | ?]; by simplify_map_eq.
  - split; [by simplify_map_eq |]. split; [by simplify_map_eq |].
    split; [intros name H1 H2; by simplify_map_eq |].
    split; [eexists [_]; split; [reflexivity | intros [H | []]; discriminate] |].
    split; [split; [reflexivity | intros _; eexists; left; reflexivity] |].
    apply map_eq. intros name.
    destruct (decide (name = "analyticsTrackingId")) as [-> | ?];
      [by simplify_map_eq |].
    destruct (decide (name = "assetPath")) as [-> | ?]; by simplify_map_eq.
Qed.

(** How the set-up depends on the environment.  The error handler, which
    shows stack traces, is installed unless [NODE_ENV] is the text
    production, so also when it is unset; the monitoring agent is loaded,
    and first of all, exactly when [ENABLE_NEWRELIC] is the text yes.  In
    every environment all handlers are installed before the routes are
    bound, the locals middleware among them, and the server starts listening
    only afterwards, on [PORT], or on 3000 when that is unset or empty. *)
Theorem server_set_up_by_environment (dirname : string) (env : Env) :
  let steps := server dirname env in
  (In (Use None Errorhandler) steps <-> NODE_ENV env <> Some "production")
  /\ (In (Require "newrelic") steps <-> ENABLE_NEWRELIC env = Some "yes")
  /\ (ENABLE_NEWRELIC env = Some "yes" -> head steps = Some (Require "newrelic"))
  /\ (exists before,
        steps = (before ++ [RoutesBind; Listen (port env);
                            ConsoleLog ("Listening on port " ++ to_string (port env));
                            ConsoleLog ""])%list
        /\ In (Use None ClientSessions) before
        /\ In (Use None LocalsMiddleware) before
        /\ ~ In RoutesBind before
        /\ forall p, ~ In (Listen p) before)
  /\ (port env = JNum 3000 <-> PORT env = None \/ PORT env = Some "")
  /\ (forall p, PORT env = Some p -> p <> "" -> port env = JStr p).
Proof.
  intros steps. subst steps. unfold server.
  split; [| split; [| split; [| split; [| split]]]].
  - destruct (ENABLE_NEWRELIC env) as [flag |], (NODE_ENV env) as [mode |];
      try destruct (String.eqb flag "yes");
      try destruct (String.eqb_spec mode "production"); subst; simpl;
      intuition congruence.
  - destruct (ENABLE_NEWRELIC env) as [flag |], (NODE_ENV env) as [mode |];
      try destruct (String.eqb_spec flag "yes");
      try destruct (String.eqb mode "production"); subst; simpl;
      intuition congruence.
  - intros ->. reflexivity.
  - rewrite !app_assoc. eexists. split; [reflexivity |].
    destruct (ENABLE_NEWRELIC env) as [flag |], (NODE_ENV env) as [mode |];
      try destruct (String.eqb flag "yes");
      try destruct (String.eqb mode "production"); simpl;
      (split; [tauto | split; [tauto | split; [| intros p]]]);
      intuition discriminate.
  - unfold port. destruct (PORT env) as [p |];
      [destruct (String.eqb_spec p "") |]; subst; intuition congruence.
  - intros p Hp Hne. unfold port. rewrite Hp.
    by destruct (String.eqb_spec p "").
Qed.

End ServerFacts.

(* ===================================================================== *)
(** * Properties of the promise chain of the middleware *)
(* ===================================================================== *)

Module ChainedFacts.
Import Js ResolveService Outcome MiddlewareFacts.

(** When the store accepts the put and [next()] returns, the chain is the
    one callback the settlement selects. *)
Lemma middleware_chain_agrees
    (CORRELATION_HEADER : string) (env_SERVICE_CACHE_MAX_AGE : option Z)
    (now later : Z) (req : Req) (res : Res)
    (serviceCache : Cache.Store Service) (s : Settlement) :
  0 < SERVICE_CACHE_MAX_AGE env_SERVICE_CACHE_MAX_AGE ->
  Chained.middleware_chain CORRELATION_HEADER env_SERVICE_CACHE_MAX_AGE false
    now req res serviceCache later s
  = middleware CORRELATION_HEADER env_SERVICE_CACHE_MAX_AGE now req res serviceCache later s.
Proof.
  intros Hpos. unfold Chained.middleware_chain, middleware.
  destruct (middleware_sync CORRELATION_HEADER now req res serviceCache) as [r | k r];
    [reflexivity |].
  destruct s as [v |]; [| reflexivity].
  simpl. unfold Chained.then_callback, Chained.put_accepts.
  by destruct (Z.ltb_spec 0 (SERVICE_CACHE_MAX_AGE env_SERVICE_CACHE_MAX_AGE)); [| lia].
Qed.

Section Chains.

Variable CORRELATION_HEADER : string.
Variable env_SERVICE_CACHE_MAX_AGE : option Z.

Local Abbreviation ttl := (SERVICE_CACHE_MAX_AGE env_SERVICE_CACHE_MAX_AGE).
Local Abbreviation step := (Chained.act CORRELATION_HEADER env_SERVICE_CACHE_MAX_AGE).
Local Abbreviation steps := (Chained.replay CORRELATION_HEADER env_SERVICE_CACHE_MAX_AGE).







End Chains.


(** What a run does at most once, and what it can do twice.  The service is
    fetched at most once and stored only after it was fetched.  The next
    stage is invoked at most twice, and twice exactly when the fetch
    succeeded, the put was accepted, [next()] threw in the [then] callback
    and the [catch] callback could build its log line: it then invokes
    [next()] again.  When [next()] returns, the run ends exactly once, in
    the response, in the next stage or in the exception of the log line,
    and nothing follows its end. *)
Theorem next_is_invoked_twice_only_after_it_threw
    (CORRELATION_HEADER : string) (env_SERVICE_CACHE_MAX_AGE : option Z)
    (next_throws : bool) (now later : Z) (req : Req) (res : Res)
    (serviceCache : Cache.Store Service) (s : Settlement) :
  let r := Chained.middleware_chain CORRELATION_HEADER env_SERVICE_CACHE_MAX_AGE
             next_throws now req res serviceCache later s in
  (count is_fetch (trace r) <= 1)%nat
  /\ (count is_put (trace r) <= count is_fetch (trace r))%nat
  /\ (count is_next (trace r) <= 2)%nat
  /\ (count is_next (trace r) = 2%nat
      <-> unauthorised req = false
          /\ Cache.get (gatewayAccountId req) now serviceCache = None
          /\ (exists v, s = Fulfilled v)
          /\ 0 < SERVICE_CACHE_MAX_AGE env_SERVICE_CACHE_MAX_AGE
          /\ next_throws = true
          /\ (exists name, serviceName req = Some name))
  /\ (next_throws = false ->
      count is_end (trace r) = 1%nat
      /\ exists e, final (trace r) = Some e /\ is_end e = true).
Proof.
  intros r. subst r. unfold Chained.middleware_chain, middleware_sync.
  unfold Chained.settle_chain, Chained.then_callback, Chained.catch_callback,
    Chained.put_accepts, on_rejected.
  destruct (unauthorised req) eqn:Hauth;
    [| destruct (Cache.get (gatewayAccountId req) now serviceCache) as [hit |] eqn:Hget;
       [| destruct s as [v |];
          [destruct (Z.ltb_spec 0 (SERVICE_CACHE_MAX_AGE env_SERVICE_CACHE_MAX_AGE));
             [destruct next_throws |] |];
          destruct (serviceName req) as [name |] eqn:Hname]];
    unfold count; simpl;
    (split; [lia |]); (split; [lia |]); (split; [lia |]);
    (split; [split |]).
  all: try (intros Hcount; discriminate Hcount).
  all: try (intros (Ha & Hg & (w & Hw) & Hpos & Hthrows & (n & Hn));
            first [discriminate | lia | reflexivity]).
  all: try (intros _; split; [reflexivity | by eexists]).
  intros _. repeat split; try assumption; by eexists.
Qed.

(** ** The properties on the sample requests *)


End ChainedFacts.
